(** * The Elasticsearch output bot of IntelMQ

    A shallow embedding of [intelmq/bots/outputs/elasticsearch/output.py]:
    the key sanitizer [replace_keys], the index resolver [get_index] and the
    per-event pipeline [process] (flatten, sanitize, resolve, submit,
    acknowledge), followed by the properties of the specification that were
    checked against them. *)

From Stdlib Require Import ZArith List String Ascii Bool Lia.
Import ListNotations.

Local Open Scope list_scope.
Local Open Scope string_scope.

(** ** Python strings

    A [str] is modelled by a Rocq [string]; one [ascii] stands for one
    character. *)

Module PyStr.

(** [s.startswith(p)] *)
Fixpoint startswith (p s : string) : bool :=
  match p, s with
  | EmptyString, _ => true
  | String a p', String b s' => Ascii.eqb a b && startswith p' s'
  | String _ _, EmptyString => false
  end.

(** [c in s] for a single character [c]. *)
Fixpoint contains (c : ascii) (s : string) : bool :=
  match s with
  | EmptyString => false
  | String a s' => Ascii.eqb c a || contains c s'
  end.

(** [s.replace(old, new)] when [old] is not empty: the occurrences of [old]
    are found from left to right and do not overlap.  [skip] counts the
    characters of the occurrence just replaced that are still to be
    dropped. *)
Fixpoint replace_from (old new : string) (skip : nat) (s : string) : string :=
  match s with
  | EmptyString => EmptyString
  | String c s' =>
      match skip with
      | S k => replace_from old new k s'
      | O =>
          if startswith old s
          then new ++ replace_from old new (String.length old - 1) s'
          else String c (replace_from old new 0 s')
      end
  end.

(** [s.replace('', new)]: [new] goes in front of every character and at
    the end. *)
Fixpoint interleave (new s : string) : string :=
  match s with
  | EmptyString => new
  | String c s' => new ++ String c (interleave new s')
  end.

Definition replace (s old new : string) : string :=
  match old with
  | EmptyString => interleave new s
  | String _ _ => replace_from old new 0 s
  end.

(** A one-character string. *)
Definition chr (c : ascii) : string := String c EmptyString.

End PyStr.

(** ** Values

    What an event, a decoded JSON text or a document is made of.  A [dict]
    keeps its entries in insertion order, as Python's does; its keys are
    strings (the keys of an event and of a JSON object are).  A float is
    carried by its bit pattern: nothing here looks inside one. *)

#[local] Unset Elimination Schemes.

Inductive value : Type :=
| VNone
| VBool (b : bool)
| VInt (n : Z)
| VFloat (bits : Z)
| VStr (s : string)
| VList (l : list value)
| VDict (d : list (string * value)).

#[local] Set Elimination Schemes.

Definition dict : Type := list (string * value).

(** [isinstance(v, Mapping)] and [isinstance(v, str)] *)
Definition is_mapping (v : value) : bool :=
  match v with VDict _ => true | _ => false end.


Definition keys (d : dict) : list string := map fst d.

(** [d.get(k)] as an option: [None] when [k in d] is false. *)
Fixpoint dict_get (k : string) (d : dict) : option value :=
  match d with
  | [] => None
  | (k', v) :: d' => if String.eqb k' k then Some v else dict_get k d'
  end.

(** [d[k] = v]: an existing key keeps its place and takes the new value, a
    new key goes to the end. *)
Fixpoint dict_set (k : string) (v : value) (d : dict) : dict :=
  match d with
  | [] => [(k, v)]
  | (k', v') :: d' =>
      if String.eqb k' k then (k', v) :: d' else (k', v') :: dict_set k v d'
  end.

(** [d.pop(k)] for a key that is present (keys are unique in a dict, so at
    most one entry goes). *)
Definition dict_pop (k : string) (d : dict) : dict :=
  filter (fun kv => negb (String.eqb (fst kv) k)) d.

(** The representation invariant of a dict: no key twice. *)
Definition wf_dict (d : dict) : Prop := NoDup (keys d).

(** ** KeySanitizer: [replace_keys] *)

Fixpoint replace_keys (obj : value) (key_char replacement : string) : value :=
  match obj with
  | VDict d =>
      VDict
        (fold_left
           (fun replacement_obj kv =>
              match kv with
              | (key, val) =>
                  dict_set (PyStr.replace key key_char replacement)
                           (replace_keys val key_char replacement)
                           replacement_obj
              end)
           d [])
  | _ => obj
  end.

(** *** Predicates on the keys and on the values of a structure *)

(** No key contains [c], looking into the values of mappings only. *)
Fixpoint keys_clean (c : ascii) (v : value) : bool :=
  match v with
  | VDict d =>
      forallb (fun kv => negb (PyStr.contains c (fst kv)) && keys_clean c (snd kv)) d
  | _ => true
  end.

(** No key contains [c] at any depth, looking into lists as well. *)
Fixpoint keys_clean_deep (c : ascii) (v : value) : bool :=
  match v with
  | VDict d =>
      forallb (fun kv => negb (PyStr.contains c (fst kv)) && keys_clean_deep c (snd kv)) d
  | VList l => forallb (keys_clean_deep c) l
  | _ => true
  end.

(** The values of a structure that are not mappings, level after level, in
    iteration order. *)
Fixpoint values_of (v : value) : list value :=
  match v with
  | VDict d => flat_map (fun kv => values_of (snd kv)) d
  | _ => [v]
  end.

Fixpoint nodupb (l : list string) : bool :=
  match l with
  | [] => true
  | x :: l' => negb (existsb (String.eqb x) l') && nodupb l'
  end.

(** No two keys of a same mapping are renamed to the same key, at any
    level. *)
Fixpoint collision_free (key_char replacement : string) (v : value) : bool :=
  match v with
  | VDict d =>
      nodupb (map (fun kv => PyStr.replace (fst kv) key_char replacement) d)
      && forallb (fun kv => collision_free key_char replacement (snd kv)) d
  | _ => true
  end.

(** ** Exceptions

    The exception classes the bot can meet, and the two [isinstance] tests
    its [except] clauses make.  [JSONDecodeError] is a subclass of
    [ValueError]. *)

Inductive exn : Type :=
| TypeError
| ValueError
| JSONDecodeError
| OtherError (name : string).

Definition isinstance_ValueError (e : exn) : bool :=
  match e with ValueError | JSONDecodeError => true | _ => false end.

Definition isinstance_TypeError (e : exn) : bool :=
  match e with TypeError => true | _ => false end.

Inductive result (A : Type) : Type :=
| Ok (a : A)
| Raise (e : exn).

Arguments Ok {A} a.
Arguments Raise {A} e.

Definition bind {A B : Type} (m : result A) (f : A -> result B) : result B :=
  match m with
  | Ok a => f a
  | Raise e => Raise e
  end.

Notation "x <- m ;; k" := (bind m (fun x => k))
  (at level 61, m at next level, right associativity).

(** ** [datetime.strptime] at the format of the bot

    [datetime.strptime(t, '%Y-%m-%dT%H:%M:%S+00:00')] turns the format into
    a regular expression, one group per directive, matches it at the start
    of [t] ignoring case, refuses what is left over, and builds the
    [datetime], which checks the calendar.  A matcher returns the ways it can
    read the front of its input, in the order of the group's alternatives;
    putting matchers in sequence tries them in that order, as the
    backtracking matcher does. *)

Module Datetime.

Local Open Scope list_scope.
Local Open Scope char_scope.
Local Open Scope Z_scope.

Definition between (lo hi c : ascii) : bool :=
  (nat_of_ascii lo <=? nat_of_ascii c)%nat && (nat_of_ascii c <=? nat_of_ascii hi)%nat.

Definition is_digit (c : ascii) : bool := between "0" "9" c.

Definition just (c0 c : ascii) : bool := Ascii.eqb c0 c.

(** [int] of one character of a group: a digit, or the blank the day group
    allows in front. *)
Definition digit_val (c : ascii) : Z :=
  if is_digit c then Z.of_nat (nat_of_ascii c) - 48 else 0.

Definition lower (c : ascii) : ascii :=
  if between "A" "Z" c then ascii_of_nat (nat_of_ascii c + 32) else c.

(** A one-character and a two-character alternative of a group. *)
Definition one (p : ascii -> bool) (s : string) : list (Z * string) :=
  match s with
  | String a r => if p a then [(digit_val a, r)] else []
  | EmptyString => []
  end.

Definition two (p q : ascii -> bool) (s : string) : list (Z * string) :=
  match s with
  | String a (String b r) =>
      if p a && q b then [(10 * digit_val a + digit_val b, r)] else []
  | _ => []
  end.

(** [%Y]: [\d\d\d\d] *)
Definition re_Y (s : string) : list (Z * string) :=
  match s with
  | String a (String b (String c (String d r))) =>
      if is_digit a && is_digit b && is_digit c && is_digit d
      then [(1000 * digit_val a + 100 * digit_val b + 10 * digit_val c + digit_val d, r)]
      else []
  | _ => []
  end.

(** [%m]: [1[0-2]|0[1-9]|[1-9]] *)
Definition re_m (s : string) : list (Z * string) :=
  two (just "1") (between "0" "2") s ++ two (just "0") (between "1" "9") s
    ++ one (between "1" "9") s.

(** [%d]: [3[0-1]|[1-2]\d|0[1-9]|[1-9]| [1-9]] *)
Definition re_d (s : string) : list (Z * string) :=
  two (just "3") (between "0" "1") s ++ two (between "1" "2") is_digit s
    ++ two (just "0") (between "1" "9") s ++ one (between "1" "9") s
    ++ two (just " ") (between "1" "9") s.

(** [%H]: [2[0-3]|[0-1]\d|\d] *)
Definition re_H (s : string) : list (Z * string) :=
  two (just "2") (between "0" "3") s ++ two (between "0" "1") is_digit s
    ++ one is_digit s.

(** [%M]: [[0-5]\d|\d] *)
Definition re_M (s : string) : list (Z * string) :=
  two (between "0" "5") is_digit s ++ one is_digit s.

(** [%S]: [6[0-1]|[0-5]\d|\d] *)
Definition re_S (s : string) : list (Z * string) :=
  two (just "6") (between "0" "1") s ++ two (between "0" "5") is_digit s
    ++ one is_digit s.

(** A literal character of the format, matched ignoring case. *)
Definition lit (c : ascii) (s : string) : list (unit * string) :=
  match s with
  | String a r => if Ascii.eqb (lower c) (lower a) then [(tt, r)] else []
  | EmptyString => []
  end.

Definition and_then {A B : Type} (m : list (A * string))
           (k : A -> string -> list (B * string)) : list (B * string) :=
  flat_map (fun ar => k (fst ar) (snd ar)) m.

Fixpoint lits (l : string) (s : string) : list (unit * string) :=
  match l with
  | EmptyString => [(tt, s)]
  | String c l' => and_then (lit c s) (fun _ s' => lits l' s')
  end.

(** The fields of a match. *)
Record fields : Type := Fields {
  f_Y : Z; f_m : Z; f_d : Z; f_H : Z; f_M : Z; f_S : Z
}.

(** The regular expression of ['%Y-%m-%dT%H:%M:%S+00:00']. *)
Definition format_regex (s : string) : list (fields * string) :=
  and_then (re_Y s) (fun Y s =>
  and_then (lit "-" s) (fun _ s =>
  and_then (re_m s) (fun m s =>
  and_then (lit "-" s) (fun _ s =>
  and_then (re_d s) (fun d s =>
  and_then (lit "T" s) (fun _ s =>
  and_then (re_H s) (fun H s =>
  and_then (lit ":" s) (fun _ s =>
  and_then (re_M s) (fun M s =>
  and_then (lit ":" s) (fun _ s =>
  and_then (re_S s) (fun S s =>
  and_then (lits "+00:00"%string s) (fun _ s =>
  [(Fields Y m d H M S, s)])))))))))))).

Definition is_leap (y : Z) : bool :=
  (y mod 4 =? 0) && (negb (y mod 100 =? 0) || (y mod 400 =? 0)).

Definition days_in_month (y m : Z) : Z :=
  if m =? 2 then (if is_leap y then 29 else 28)
  else if (m =? 4) || (m =? 6) || (m =? 9) || (m =? 11) then 30
  else 31.

(** What the constructor of [datetime] accepts. *)
Definition valid (f : fields) : bool :=
  (1 <=? f_Y f) && (f_Y f <=? 9999) && (1 <=? f_m f) && (f_m f <=? 12)
  && (1 <=? f_d f) && (f_d f <=? days_in_month (f_Y f) (f_m f))
  && (0 <=? f_H f) && (f_H f <=? 23) && (0 <=? f_M f) && (f_M f <=? 59)
  && (0 <=? f_S f) && (f_S f <=? 59).

(** [datetime.strptime(t, '%Y-%m-%dT%H:%M:%S+00:00')]: [TypeError] when [t]
    is not a string, [ValueError] when it does not match, when something is
    left after the match, or when the fields are no date and time. *)
Definition strptime (t : value) : result fields :=
  match t with
  | VStr data_string =>
      match format_regex data_string with
      | [] => Raise ValueError
      | (found, rest) :: _ =>
          match rest with
          | String _ _ => Raise ValueError
          | EmptyString => if valid found then Ok found else Raise ValueError
          end
      end
  | _ => Raise TypeError
  end.

Definition digit_char (n : Z) : ascii := ascii_of_nat (48 + Z.to_nat n).

Definition pad2 (n : Z) : string :=
  String (digit_char (n / 10)) (String (digit_char (n mod 10)) EmptyString).

Definition pad4 (n : Z) : string :=
  String (digit_char (n / 1000)) (String (digit_char (n / 100 mod 10))
    (String (digit_char (n / 10 mod 10)) (String (digit_char (n mod 10)) EmptyString))).

(** [.date().isoformat()] *)
Definition date_isoformat (f : fields) : string :=
  (pad4 (f_Y f) ++ "-" ++ pad2 (f_m f) ++ "-" ++ pad2 (f_d f))%string.

(** A timestamp written in the format, every field at its full width. *)
Definition timestamp (f : fields) : string :=
  (pad4 (f_Y f) ++ "-" ++ pad2 (f_m f) ++ "-" ++ pad2 (f_d f) ++ "T"
     ++ pad2 (f_H f) ++ ":" ++ pad2 (f_M f) ++ ":" ++ pad2 (f_S f) ++ "+00:00")%string.

End Datetime.

(** ** The bot *)

(** The settings [init] reads, with their defaults. *)
Record parameters : Type := Parameters {
  elastic_index : string;
  rotate_index : bool;
  elastic_doctype : string;
  replacement_char : string;
  flatten_fields : list string
}.

Definition default_parameters : parameters :=
  {| elastic_index := "intelmq";
     rotate_index := false;
     elastic_doctype := "events";
     replacement_char := "_";
     flatten_fields := ["extra"] |}.

(** What the bot calls and does not own: [json.loads], the write of the
    store client [es.index(index=, doc_type=, body=)], and the clock, read
    as [datetime.today().date().isoformat()]. *)
Record collaborators : Type := Collaborators {
  loads : string -> result value;
  es_index : string -> string -> dict -> result unit;
  today : string
}.

(** What [process] does to the outside, in order. *)
Inductive effect : Type :=
| EsIndex (index doc_type : string) (body : dict)
| Acknowledge.

(** *** IndexResolver: [get_index] *)

(** The loop over the two candidates: the first that parses gives the date
    and ends the loop; [TypeError] and [ValueError] go on to the next. *)
Fixpoint event_date_of (candidates : list value) : result (option string) :=
  match candidates with
  | [] => Ok None
  | t :: rest =>
      match Datetime.strptime t with
      | Ok dt => Ok (Some (Datetime.date_isoformat dt))
      | Raise e =>
          if isinstance_TypeError e || isinstance_ValueError e
          then event_date_of rest
          else Raise e
      end
  end.

(** [event_dict.get(k, None)] *)
Definition get_or_None (k : string) (d : dict) : value :=
  match dict_get k d with Some v => v | None => VNone end.

(** [a or b] on an optional string: [None] and the empty string are false. *)
Definition or_default (a : option string) (b : string) : string :=
  match a with
  | Some (String c s) => String c s
  | _ => b
  end.

Definition get_index (self : parameters) (event_dict : dict) (default : string)
  : result string :=
  if rotate_index self then
    event_date <- event_date_of [get_or_None "time_source" event_dict;
                                 get_or_None "time_observation" event_dict] ;;
    Ok (elastic_index self ++ "-" ++ or_default event_date default)
  else Ok (elastic_index self).

(** *** FieldFlattener: the loop at the head of [process] *)

(** [try: val = loads(val) except ValueError: pass], for a string [val]. *)
Definition try_loads (ext : collaborators) (val : value) : result value :=
  match val with
  | VStr s =>
      match loads ext s with
      | Ok decoded => Ok decoded
      | Raise e => if isinstance_ValueError e then Ok val else Raise e
      end
  | _ => Ok val
  end.

(** [for key, value in val.items(): event_dict[field + '_' + key] = value] *)
Definition promote (field : string) (val : dict) (event_dict : dict) : dict :=
  fold_left (fun ed kv => dict_set (field ++ "_" ++ fst kv) (snd kv) ed) val event_dict.

(** The body of the loop, for one [field]. *)
Definition flatten_field (ext : collaborators) (event_dict : dict) (field : string)
  : result dict :=
  match dict_get field event_dict with
  | None => Ok event_dict
  | Some val =>
      val <- try_loads ext val ;;
      match val with
      | VDict items => Ok (dict_pop field (promote field items event_dict))
      | _ => Ok event_dict
      end
  end.

Fixpoint flatten (ext : collaborators) (fields : list string) (event_dict : dict)
  : result dict :=
  match fields with
  | [] => Ok event_dict
  | field :: rest =>
      event_dict <- flatten_field ext event_dict field ;;
      flatten ext rest event_dict
  end.

(** *** EventSink: [process]

    [event_dict] is what [self.receive_message().to_dict(hierarchical=False)]
    gave.  The result is what was done to the outside, and how the call
    ended. *)
Definition process (self : parameters) (ext : collaborators) (event_dict : dict)
  : list effect * result unit :=
  match flatten ext (flatten_fields self) event_dict with
  | Raise e => ([], Raise e)
  | Ok event_dict =>
      match replace_keys (VDict event_dict) "." (replacement_char self) with
      | VDict event_dict =>
          match get_index self event_dict (today ext) with
          | Raise e => ([], Raise e)
          | Ok index =>
              let sent := EsIndex index (elastic_doctype self) event_dict in
              match es_index ext index (elastic_doctype self) event_dict with
              | Raise e => ([sent], Raise e)
              | Ok _ => ([sent; Acknowledge], Ok tt)
              end
          end
      | _ => ([], Raise TypeError)
      end
  end.

(** *** The start of the bot: [init] *)

(** [s.split(sep)] for a separator that is not empty: the pieces between the
    occurrences of [sep], found from left to right.  [skip] counts the
    characters of the occurrence just met that are still to be dropped. *)
Fixpoint split_from (sep : string) (skip : nat) (s : string) : list string :=
  match s with
  | EmptyString => [EmptyString]
  | String c s' =>
      match skip with
      | S k => split_from sep k s'
      | O =>
          if PyStr.startswith sep s
          then EmptyString :: split_from sep (String.length sep - 1) s'
          else
            match split_from sep 0 s' with
            | piece :: pieces => String c piece :: pieces
            | [] => [String c EmptyString]
            end
      end
  end.

(** [s.split(sep)]: an empty separator is a [ValueError]. *)
Definition str_split (s sep : string) : result (list string) :=
  match sep with
  | EmptyString => Raise ValueError
  | String _ _ => Ok (split_from sep 0 s)
  end.

(** The setting [flatten_fields]: a text or a list of names. *)
Inductive flatten_setting : Type :=
| FieldsText (s : string)
| FieldsList (l : list string).

(** [self.parameters]: each setting is there or not. *)
Record settings : Type := Settings {
  set_elastic_host : option string;
  set_elastic_port : option string;
  set_elastic_index : option string;
  set_rotate_index : option bool;
  set_http_username : option string;
  set_http_password : option string;
  set_elastic_doctype : option string;
  set_replacement_char : option string;
  set_flatten_fields : option flatten_setting
}.

(** [getattr(self.parameters, name, default)] *)
Definition getattr {A : Type} (setting : option A) (default : A) : A :=
  match setting with Some a => a | None => default end.

(** What [init] finds on its way: whether the client library could be
    imported, and the answers of [es.indices.exists_template(name=)],
    [es.indices.exists()] and [es.indices.create(index=, ignore=400)]. *)
Record cluster : Type := Cluster {
  module_present : bool;
  exists_template : string -> result bool;
  indices_exists : string -> result bool;
  indices_create : string -> result unit
}.

(** What [init] does to the outside, in order. *)
Inductive admin : Type :=
| Connect (host port : string) (http_auth : option (string * string))
| ExistsTemplate (name : string)
| IndicesExists (index : string)
| IndicesCreate (index : string).

(** [kwargs]: the credentials go to the client when
    [self.http_username and self.http_password] holds, that is when both are
    there and not empty. *)
Definition http_auth_of (http_username http_password : option string)
  : option (string * string) :=
  match http_username, http_password with
  | Some (String a u), Some (String b p) => Some (String a u, String b p)
  | _, _ => None
  end.

(** [self.flatten_fields], split at the commas when it is a text. *)
Definition flatten_fields_of (setting : flatten_setting) : result (list string) :=
  match setting with
  | FieldsText s => str_split s ","
  | FieldsList l => Ok l
  end.

Definition init (cfg : settings) (es : cluster) : list admin * result parameters :=
  if negb (module_present es) then ([], Raise ValueError)
  else
    let elastic_host := getattr (set_elastic_host cfg) "127.0.0.1" in
    let elastic_port := getattr (set_elastic_port cfg) "9200" in
    let elastic_index := getattr (set_elastic_index cfg) "intelmq" in
    let rotate_index := getattr (set_rotate_index cfg) false in
    let elastic_doctype := getattr (set_elastic_doctype cfg) "events" in
    let replacement_char := getattr (set_replacement_char cfg) "_" in
    match flatten_fields_of (getattr (set_flatten_fields cfg) (FieldsList ["extra"])) with
    | Raise e => ([], Raise e)
    | Ok flatten_fields =>
        let self := Parameters elastic_index rotate_index elastic_doctype
                               replacement_char flatten_fields in
        let connect :=
          Connect elastic_host elastic_port
                  (http_auth_of (set_http_username cfg) (set_http_password cfg)) in
        if rotate_index then
          match exists_template es elastic_index with
          | Raise e => ([connect; ExistsTemplate elastic_index], Raise e)
          | Ok true => ([connect; ExistsTemplate elastic_index], Ok self)
          | Ok false =>
              ([connect; ExistsTemplate elastic_index], Raise (OtherError "RuntimeError"))
          end
        else
          match indices_exists es elastic_index with
          | Raise e => ([connect; IndicesExists elastic_index], Raise e)
          | Ok true => ([connect; IndicesExists elastic_index], Ok self)
          | Ok false =>
              match indices_create es elastic_index with
              | Raise e =>
                  ([connect; IndicesExists elastic_index; IndicesCreate elastic_index],
                   Raise e)
              | Ok _ =>
                  ([connect; IndicesExists elastic_index; IndicesCreate elastic_index],
                   Ok self)
              end
          end
    end.

(** ** Auxiliary definitions for the statements *)

(** One turn of the loop of [replace_keys]. *)
Definition rename_step (key_char replacement : string) (replacement_obj : dict)
           (kv : string * value) : dict :=
  dict_set (PyStr.replace (fst kv) key_char replacement)
           (replace_keys (snd kv) key_char replacement) replacement_obj.

(** The entry that [replace_keys] makes of an entry. *)
Definition renamed (key_char replacement : string) (kv : string * value)
  : string * value :=
  (PyStr.replace (fst kv) key_char replacement,
   replace_keys (snd kv) key_char replacement).


(** A store that takes every document, a decoder that refuses every text,
    and a day: collaborators to run the bot with. *)
Definition quiet_collaborators : collaborators :=
  {| loads := fun _ => Raise JSONDecodeError;
     es_index := fun _ _ _ => Ok tt;
     today := "2026-11-04" |}.

(** The same with a store that is down. *)
Definition store_down : collaborators :=
  {| loads := fun _ => Raise JSONDecodeError;
     es_index := fun _ _ _ => Raise (OtherError "ConnectionError");
     today := "2026-11-04" |}.

(** The same with a decoder that knows the texts of a table and refuses the
    others. *)
Definition with_decoder (table : list (string * value)) : collaborators :=
  {| loads := fun s =>
       match dict_get s table with Some v => Ok v | None => Raise JSONDecodeError end;
     es_index := fun _ _ _ => Ok tt;
     today := "2026-11-04" |}.

(** What the flattener leaves alone: a text that the decoder refuses with a
    [ValueError] or decodes to something that is no mapping, or a value that
    is neither a text nor a mapping. *)
Definition decodes_to_no_mapping (ext : collaborators) (val : value) : Prop :=
  match val with
  | VStr s =>
      (exists e, loads ext s = Raise e /\ isinstance_ValueError e = true)
      \/ (exists decoded, loads ext s = Ok decoded /\ is_mapping decoded = false)
  | _ => is_mapping val = false
  end.

(** [sep.join(pieces)] *)
Fixpoint str_join (sep : string) (pieces : list string) : string :=
  match pieces with
  | [] => EmptyString
  | [piece] => piece
  | piece :: rest => piece ++ sep ++ str_join sep rest
  end.

(** No key twice in a mapping, at any level reached through the values of
    mappings. *)
Fixpoint unique_keys (v : value) : bool :=
  match v with
  | VDict d => nodupb (map fst d) && forallb (fun kv => unique_keys (snd kv)) d
  | _ => true
  end.

(** The value of the last entry of a mapping whose key is renamed to
    [name]. *)
Definition last_renamed_to (key_char replacement name : string) (d : dict)
  : option value :=
  fold_left
    (fun found kv =>
       if String.eqb (PyStr.replace (fst kv) key_char replacement) name
       then Some (snd kv) else found)
    d None.

(** The documents written by a list of effects. *)
Definition written (effects : list effect) : list dict :=
  flat_map (fun e => match e with EsIndex _ _ body => [body] | Acknowledge => [] end)
           effects.

(** A decoder whose only exceptions are [ValueError]s. *)
Definition decoder_raises_ValueError_only (ext : collaborators) : Prop :=
  forall s e, loads ext s = Raise e -> isinstance_ValueError e = true.

(** A cluster that has everything, and one that has nothing. *)
Definition ready_cluster : cluster :=
  {| module_present := true;
     exists_template := fun _ => Ok true;
     indices_exists := fun _ => Ok true;
     indices_create := fun _ => Ok tt |}.

Definition empty_cluster : cluster :=
  {| module_present := true;
     exists_template := fun _ => Ok false;
     indices_exists := fun _ => Ok false;
     indices_create := fun _ => Ok tt |}.

(** No setting given. *)
Definition no_settings : settings :=
  Settings None None None None None None None None None.

(** Fields that can be written in the format: four digits for the year, two
    for each of the others, month, day, hour, minute and second in the ranges
    the format reads. *)
Definition writable (f : Datetime.fields) : bool :=
  ((0 <=? Datetime.f_Y f) && (Datetime.f_Y f <=? 9999)
   && (1 <=? Datetime.f_m f) && (Datetime.f_m f <=? 12)
   && (1 <=? Datetime.f_d f) && (Datetime.f_d f <=? 31)
   && (0 <=? Datetime.f_H f) && (Datetime.f_H f <=? 23)
   && (0 <=? Datetime.f_M f) && (Datetime.f_M f <=? 59)
   && (0 <=? Datetime.f_S f) && (Datetime.f_S f <=? 61))%Z.

(** * Properties *)

(** ** Induction on values, through the values of mappings *)

Section ValueInduction.

Variable P : value -> Prop.
Hypothesis Hleaf : forall v, is_mapping v = false -> P v.
Hypothesis Hdict : forall d, Forall (fun kv => P (snd kv)) d -> P (VDict d).

Fixpoint value_mapping_ind (v : value) : P v :=
  match v as v0 return P v0 with
  | VDict d =>
      Hdict d
        ((fix entries (d : list (string * value)) : Forall (fun kv => P (snd kv)) d :=
            match d with
            | [] => Forall_nil _
            | kv :: d' => Forall_cons kv (value_mapping_ind (snd kv)) (entries d')
            end) d)
  | VNone => Hleaf VNone eq_refl
  | VBool b => Hleaf (VBool b) eq_refl
  | VInt n => Hleaf (VInt n) eq_refl
  | VFloat x => Hleaf (VFloat x) eq_refl
  | VStr s => Hleaf (VStr s) eq_refl
  | VList l => Hleaf (VList l) eq_refl
  end.

End ValueInduction.

(** ** Strings *)

Lemma contains_app (c : ascii) (s t : string) :
  PyStr.contains c (s ++ t) = PyStr.contains c s || PyStr.contains c t.
Proof.
  induction s as [|a s IH]; simpl; [reflexivity|].
  rewrite IH. apply orb_assoc.
Qed.

(** Replacing a character by a string that does not hold it leaves none. *)
Lemma replace_char_clean (c : ascii) (r s : string) :
  PyStr.contains c r = false ->
  PyStr.contains c (PyStr.replace s (PyStr.chr c) r) = false.
Proof.
  intros Hr. unfold PyStr.replace, PyStr.chr.
  induction s as [|a s IH]; simpl; [reflexivity|].
  destruct (Ascii.eqb c a) eqn:E; simpl.
  - rewrite contains_app, Hr, IH. reflexivity.
  - rewrite E, IH. reflexivity.
Qed.

(** ** Dicts *)

Lemma dict_get_set (k k' : string) (v : value) (d : dict) :
  dict_get k' (dict_set k v d) = if String.eqb k k' then Some v else dict_get k' d.
Proof.
  induction d as [|[k0 v0] d IH]; simpl.
  - reflexivity.
  - destruct (String.eqb k0 k) eqn:E0; simpl.
    + apply String.eqb_eq in E0. subst k0.
      destruct (String.eqb k k'); reflexivity.
    + destruct (String.eqb k0 k') eqn:E1.
      * apply String.eqb_eq in E1. subst k0.
        rewrite String.eqb_sym, E0. reflexivity.
      * exact IH.
Qed.

Lemma dict_get_pop (k k' : string) (d : dict) :
  dict_get k' (dict_pop k d) = if String.eqb k k' then None else dict_get k' d.
Proof.
  unfold dict_pop.
  induction d as [|[k0 v0] d IH]; simpl.
  - destruct (String.eqb k k'); reflexivity.
  - destruct (String.eqb k0 k) eqn:E0; simpl.
    + apply String.eqb_eq in E0. subst k0. rewrite IH.
      destruct (String.eqb k k'); reflexivity.
    + rewrite IH. destruct (String.eqb k0 k') eqn:E1; [|reflexivity].
      apply String.eqb_eq in E1. subst k0.
      rewrite String.eqb_sym, E0. reflexivity.
Qed.

Lemma dict_get_None (k : string) (d : dict) :
  dict_get k d = None <-> ~ In k (keys d).
Proof.
  induction d as [|[k0 v0] d IH]; simpl.
  - tauto.
  - destruct (String.eqb k0 k) eqn:E.
    + apply String.eqb_eq in E. split; [discriminate | intros H; exfalso; auto].
    + apply String.eqb_neq in E. rewrite IH. tauto.
Qed.

Lemma dict_set_fresh (k : string) (v : value) (d : dict) :
  ~ In k (keys d) -> dict_set k v d = (d ++ [(k, v)])%list.
Proof.
  induction d as [|[k0 v0] d IH]; simpl; [reflexivity|].
  intros H. destruct (String.eqb k0 k) eqn:E.
  - apply String.eqb_eq in E. tauto.
  - rewrite IH by tauto. reflexivity.
Qed.

Lemma dict_set_In (k : string) (v : value) (d : dict) (kv : string * value) :
  In kv (dict_set k v d) -> kv = (k, v) \/ In kv d.
Proof.
  induction d as [|[k0 v0] d IH]; simpl.
  - intros [H | []]. now left.
  - destruct (String.eqb k0 k) eqn:E; simpl.
    + apply String.eqb_eq in E. subst k0. intros [H | H]; auto.
    + intros [H | H]; [auto|]. apply IH in H. tauto.
Qed.

Lemma forallb_dict_set (Q : string * value -> bool) (k : string) (v : value) (d : dict) :
  Q (k, v) = true -> forallb Q d = true -> forallb Q (dict_set k v d) = true.
Proof.
  intros Hkv Hd. apply forallb_forall. intros kv Hin.
  apply dict_set_In in Hin as [-> | Hin]; [exact Hkv|].
  rewrite forallb_forall in Hd. auto.
Qed.

Lemma nodupb_NoDup (l : list string) : nodupb l = true -> NoDup l.
Proof.
  induction l as [|x l IH]; simpl; intros H; constructor;
    apply andb_true_iff in H as [H1 H2]; [|auto].
  intros Hin. apply negb_true_iff in H1.
  assert (existsb (String.eqb x) l = true) as E.
  { apply existsb_exists. exists x. split; [exact Hin | apply String.eqb_refl]. }
  congruence.
Qed.

(** ** KeySanitizer *)

Lemma replace_keys_dict (key_char replacement : string) (d : dict) :
  replace_keys (VDict d) key_char replacement
  = VDict (fold_left (rename_step key_char replacement) d []).
Proof.
  simpl. f_equal. unfold rename_step.
  generalize (@nil (string * value)).
  induction d as [|[k v] d IH]; intros acc; simpl; [reflexivity|]. apply IH.
Qed.

Lemma replace_keys_leaf (key_char replacement : string) (v : value) :
  is_mapping v = false -> replace_keys v key_char replacement = v.
Proof. destruct v; simpl; intros H; try reflexivity; discriminate. Qed.

Lemma keys_clean_dict (c : ascii) (d : dict) :
  keys_clean c (VDict d)
  = forallb (fun kv => negb (PyStr.contains c (fst kv)) && keys_clean c (snd kv)) d.
Proof. reflexivity. Qed.

Lemma rename_fold_clean (c : ascii) (r : string) (d acc : dict) :
  PyStr.contains c r = false ->
  Forall (fun kv => keys_clean c (replace_keys (snd kv) (PyStr.chr c) r) = true) d ->
  keys_clean c (VDict acc) = true ->
  keys_clean c (VDict (fold_left (rename_step (PyStr.chr c) r) d acc)) = true.
Proof.
  intros Hr. revert acc.
  induction d as [|kv d IH]; intros acc Hd Hacc; simpl fold_left; [exact Hacc|].
  inversion Hd as [|? ? Hkv Hd']; subst.
  apply IH; [exact Hd'|].
  rewrite keys_clean_dict in *. unfold rename_step.
  apply forallb_dict_set; [|exact Hacc].
  cbn [fst snd]. rewrite (replace_char_clean c r (fst kv) Hr), Hkv. reflexivity.
Qed.

(** C1, as amended: when the replacement does not hold the illegal
    character, no key of the result of [replace_keys] holds it, at any depth
    reached through the values of mappings; a list is returned as it is, the
    mappings inside it are not rewritten. *)
Theorem replace_keys_cleans_mapping_keys (c : ascii) (r : string) (obj : value) :
  PyStr.contains c r = false ->
  keys_clean c (replace_keys obj (PyStr.chr c) r) = true
  /\ (forall l, obj = VList l -> replace_keys obj (PyStr.chr c) r = VList l).
Proof.
  intros Hr. split.
  - induction obj as [v Hv | d IH] using value_mapping_ind.
    + rewrite replace_keys_leaf by exact Hv. destruct v; try reflexivity; discriminate.
    + rewrite replace_keys_dict. apply rename_fold_clean; auto.
  - intros l ->. reflexivity.
Qed.

Lemma replace_keys_cleans_mapping_keys_witness :
  let m := VDict [("a.b", VDict [("c.d", VInt 1)]); ("l", VList [VDict [("e.f", VNone)]])] in
  PyStr.contains "." "_" = false
  /\ keys_clean "." (replace_keys m "." "_") = true.
Proof.
  split; [reflexivity|].
  apply (replace_keys_cleans_mapping_keys "." "_"). reflexivity.
Defined.

(** C1 as stated fails: the key of a mapping inside a list keeps the illegal
    character. *)
Lemma replace_keys_misses_lists :
  let m := VDict [("a", VList [VDict [("b.c", VInt 1)]])] in
  replace_keys m "." "_" = m
  /\ keys_clean_deep "." (replace_keys m "." "_") = false.
Proof. split; reflexivity. Qed.

Lemma values_of_dict (d : dict) :
  values_of (VDict d) = flat_map (fun kv => values_of (snd kv)) d.
Proof. reflexivity. Qed.

Lemma collision_free_dict (key_char replacement : string) (d : dict) :
  collision_free key_char replacement (VDict d)
  = nodupb (map (fun kv => PyStr.replace (fst kv) key_char replacement) d)
    && forallb (fun kv => collision_free key_char replacement (snd kv)) d.
Proof. reflexivity. Qed.

(** Without a collision every turn of the loop adds an entry at the end. *)
Lemma rename_fold_fresh (key_char replacement : string) (d acc : dict) :
  NoDup (map (fun kv => PyStr.replace (fst kv) key_char replacement) d) ->
  (forall kv, In kv d -> ~ In (PyStr.replace (fst kv) key_char replacement) (keys acc)) ->
  fold_left (rename_step key_char replacement) d acc
  = (acc ++ map (renamed key_char replacement) d)%list.
Proof.
  revert acc.
  induction d as [|kv d IH]; intros acc Hnd Hacc; simpl.
  - now rewrite app_nil_r.
  - inversion Hnd as [|? ? Hnotin Hnd']; subst.
    unfold rename_step at 2.
    rewrite dict_set_fresh by (apply Hacc; now left).
    rewrite IH; [now rewrite <- app_assoc | exact Hnd' |].
    intros kv' Hin. unfold keys. rewrite map_app, in_app_iff. simpl.
    intros [H | [H | []]].
    + apply (Hacc kv'); [now right | exact H].
    + apply Hnotin. rewrite H.
      apply (in_map (fun kv => PyStr.replace (fst kv) key_char replacement)) in Hin.
      exact Hin.
Qed.

(** Every entry of the result of the loop was there before or is made of an
    entry of the mapping. *)
Lemma rename_fold_In (key_char replacement : string) (d acc : dict) (e : string * value) :
  In e (fold_left (rename_step key_char replacement) d acc) ->
  In e acc \/ exists kv, In kv d /\ e = renamed key_char replacement kv.
Proof.
  revert acc.
  induction d as [|kv d IH]; intros acc; simpl; [tauto|].
  intros H. apply IH in H as [H | [kv' [Hin ->]]].
  - apply dict_set_In in H as [-> | H]; [|tauto].
    right. exists kv. split; [now left | reflexivity].
  - right. exists kv'. split; [now right | reflexivity].
Qed.

(** [replace_keys] makes no value: each value of its result is a value of
    its argument. *)
Lemma replace_keys_values_incl (key_char replacement : string) (obj : value) :
  incl (values_of (replace_keys obj key_char replacement)) (values_of obj).
Proof.
  induction obj as [v Hv | d IH] using value_mapping_ind.
  - rewrite replace_keys_leaf by exact Hv. apply incl_refl.
  - rewrite replace_keys_dict, !values_of_dict.
    intros x Hx. apply in_flat_map in Hx as [e [He Hx]].
    apply rename_fold_In in He as [[] | [kv [Hin ->]]].
    rewrite Forall_forall in IH.
    apply in_flat_map. exists kv. split; [exact Hin|].
    apply (IH kv Hin). exact Hx.
Qed.

(** C7, as amended: when no two keys of a same mapping are renamed to the
    same key, at any level, [replace_keys] changes keys only: a mapping
    becomes the mapping of its renamed entries, in the same order, and the
    values that are not mappings are the same, level after level. *)
Theorem replace_keys_keeps_values (key_char replacement : string) (obj : value) :
  collision_free key_char replacement obj = true ->
  values_of (replace_keys obj key_char replacement) = values_of obj
  /\ (forall d, obj = VDict d ->
      replace_keys obj key_char replacement = VDict (map (renamed key_char replacement) d)).
Proof.
  induction obj as [v Hv | d IH] using value_mapping_ind; intros Hcf.
  - rewrite replace_keys_leaf by exact Hv. split; [reflexivity|].
    intros d ->. discriminate.
  - rewrite collision_free_dict in Hcf. apply andb_true_iff in Hcf as [Hnd Hsub].
    assert (replace_keys (VDict d) key_char replacement
            = VDict (map (renamed key_char replacement) d)) as Heq.
    { rewrite replace_keys_dict, rename_fold_fresh; [reflexivity | | intros ? ? []].
      apply nodupb_NoDup. exact Hnd. }
    split; [|intros d' [= <-]; exact Heq].
    rewrite Heq, !values_of_dict.
    rewrite forallb_forall in Hsub. clear Hnd Heq.
    induction d as [|kv d IHd]; simpl; [reflexivity|].
    inversion IH as [|? ? Hkv IH']; subst.
    rewrite IHd by (auto; intros; apply Hsub; now right).
    f_equal. apply Hkv. apply Hsub. now left.
Qed.

Lemma replace_keys_keeps_values_witness :
  let m := VDict [("a.b", VDict [("c.d", VInt 1); ("e", VList [VStr "x"])]); ("a-b", VInt 2)] in
  collision_free "." "_" m = true
  /\ values_of (replace_keys m "." "_") = values_of m.
Proof.
  split; [reflexivity|].
  apply (replace_keys_keeps_values "." "_"). reflexivity.
Defined.

(** C7 as stated fails: two keys renamed to the same key leave one entry,
    and the value of the other is lost. *)
Lemma replace_keys_loses_value :
  let m := VDict [("a.b", VInt 1); ("a_b", VInt 2)] in
  replace_keys m "." "_" = VDict [("a_b", VInt 2)]
  /\ In (VInt 1) (values_of m)
  /\ ~ In (VInt 1) (values_of (replace_keys m "." "_")).
Proof.
  split; [reflexivity|]. split; [now left|].
  intros [H | []]. discriminate.
Qed.

(** ** Timestamps written in the format are read back *)

Module DatetimeFacts.
Import Datetime.
Local Open Scope Z_scope.

Lemma hd_and_then {A B : Type} (m : list (A * string))
      (k : A -> string -> list (B * string)) (a : A) (s : string) (r : B * string) :
  hd_error m = Some (a, s) -> hd_error (k a s) = Some r ->
  hd_error (and_then m k) = Some r.
Proof.
  destruct m as [|[a' s'] m]; simpl; [discriminate|].
  intros [= -> ->] H. destruct (k a s); [discriminate|]. exact H.
Qed.

Lemma digit_char_facts (n : Z) :
  0 <= n <= 9 -> is_digit (digit_char n) = true /\ digit_val (digit_char n) = n.
Proof.
  intros H. rewrite <- (Z2Nat.id n) at 3 by lia.
  unfold digit_char. assert (Z.to_nat n <= 9)%nat as Hk by lia.
  revert Hk. generalize (Z.to_nat n). intros k Hk.
  do 10 (destruct k as [|k]; [split; reflexivity|]). lia.
Qed.

Lemma re_Y_pad4 (y : Z) (rest : string) :
  0 <= y <= 9999 -> hd_error (re_Y (pad4 y ++ rest)) = Some (y, rest).
Proof.
  intros H. unfold pad4, re_Y. cbn [append].
  destruct (digit_char_facts (y / 1000)) as [-> ->]; [Z.div_mod_to_equations; lia|].
  destruct (digit_char_facts (y / 100 mod 10)) as [-> ->]; [Z.div_mod_to_equations; lia|].
  destruct (digit_char_facts (y / 10 mod 10)) as [-> ->]; [Z.div_mod_to_equations; lia|].
  destruct (digit_char_facts (y mod 10)) as [-> ->]; [Z.div_mod_to_equations; lia|].
  cbn [andb hd_error]. do 2 f_equal. Z.div_mod_to_equations. lia.
Qed.

Lemma bounded_cases (P : Z -> Prop) (lo hi : nat) :
  (forall k : nat, (lo <= k <= hi)%nat -> P (Z.of_nat k)) ->
  forall n, Z.of_nat lo <= n <= Z.of_nat hi -> P n.
Proof. intros H n Hn. rewrite <- (Z2Nat.id n) by lia. apply H. lia. Qed.

Tactic Notation "each_case" ident(k) integer(n) :=
  do n (destruct k as [|k]; [first [reflexivity | lia]|]); lia.

Lemma re_m_pad2 (n : Z) (rest : string) :
  1 <= n <= 12 -> hd_error (re_m (pad2 n ++ rest)) = Some (n, rest).
Proof.
  intros H. revert rest. pattern n. apply (bounded_cases _ 1 12); [|lia].
  clear. intros k Hk rest. each_case k 13.
Qed.

Lemma re_d_pad2 (n : Z) (rest : string) :
  1 <= n <= 31 -> hd_error (re_d (pad2 n ++ rest)) = Some (n, rest).
Proof.
  intros H. revert rest. pattern n. apply (bounded_cases _ 1 31); [|lia].
  clear. intros k Hk rest. each_case k 32.
Qed.

Lemma re_H_pad2 (n : Z) (rest : string) :
  0 <= n <= 23 -> hd_error (re_H (pad2 n ++ rest)) = Some (n, rest).
Proof.
  intros H. revert rest. pattern n. apply (bounded_cases _ 0 23); [|lia].
  clear. intros k Hk rest. each_case k 24.
Qed.

Lemma re_M_pad2 (n : Z) (rest : string) :
  0 <= n <= 59 -> hd_error (re_M (pad2 n ++ rest)) = Some (n, rest).
Proof.
  intros H. revert rest. pattern n. apply (bounded_cases _ 0 59); [|lia].
  clear. intros k Hk rest. each_case k 60.
Qed.

Lemma re_S_pad2 (n : Z) (rest : string) :
  0 <= n <= 59 -> hd_error (re_S (pad2 n ++ rest)) = Some (n, rest).
Proof.
  intros H. revert rest. pattern n. apply (bounded_cases _ 0 59); [|lia].
  clear. intros k Hk rest. each_case k 60.
Qed.

Lemma days_in_month_le (y m : Z) : 28 <= days_in_month y m <= 31.
Proof.
  unfold days_in_month.
  destruct (m =? 2); [destruct (is_leap y); lia|].
  destruct ((m =? 4) || (m =? 6) || (m =? 9) || (m =? 11)); lia.
Qed.

Lemma valid_bounds (f : fields) :
  valid f = true ->
  (1 <= f_Y f <= 9999) /\ (1 <= f_m f <= 12)
  /\ (1 <= f_d f <= days_in_month (f_Y f) (f_m f))
  /\ (0 <= f_H f <= 23) /\ (0 <= f_M f <= 59) /\ (0 <= f_S f <= 59).
Proof.
  unfold valid. rewrite !andb_true_iff, !Z.leb_le. tauto.
Qed.

Lemma format_regex_timestamp (f : fields) :
  valid f = true -> hd_error (format_regex (timestamp f)) = Some (f, EmptyString).
Proof.
  intros Hv. apply valid_bounds in Hv as (HY & Hm & Hd & HH & HM & HS).
  pose proof (days_in_month_le (f_Y f) (f_m f)) as Hdim.
  destruct f as [Y m d H M S]. cbn [f_Y f_m f_d f_H f_M f_S] in *.
  unfold timestamp, format_regex. cbn [f_Y f_m f_d f_H f_M f_S].
  eapply hd_and_then; [apply re_Y_pad4; lia|].
  eapply hd_and_then; [reflexivity|].
  eapply hd_and_then; [apply re_m_pad2; lia|].
  eapply hd_and_then; [reflexivity|].
  eapply hd_and_then; [apply re_d_pad2; lia|].
  eapply hd_and_then; [reflexivity|].
  eapply hd_and_then; [apply re_H_pad2; lia|].
  eapply hd_and_then; [reflexivity|].
  eapply hd_and_then; [apply re_M_pad2; lia|].
  eapply hd_and_then; [reflexivity|].
  eapply hd_and_then; [apply re_S_pad2; lia|].
  reflexivity.
Qed.

Lemma strptime_timestamp (f : fields) :
  valid f = true -> strptime (VStr (timestamp f)) = Ok f.
Proof.
  intros Hv. unfold strptime.
  pose proof (format_regex_timestamp f Hv) as Hhd.
  destruct (format_regex (timestamp f)) as [|[found rest] tl]; [discriminate|].
  injection Hhd as -> ->. now rewrite Hv.
Qed.
End DatetimeFacts.

(** ** IndexResolver *)

Lemma strptime_raises (t : value) (e : exn) :
  Datetime.strptime t = Raise e -> e = TypeError \/ e = ValueError.
Proof.
  unfold Datetime.strptime.
  destruct t; try (intros [= <-]; now left).
  destruct (Datetime.format_regex s) as [|[found rest] tl]; [intros [= <-]; now right|].
  destruct rest; [|intros [= <-]; now right].
  destruct (Datetime.valid found); [discriminate | intros [= <-]; now right].
Qed.

(** The loop of [get_index] over its two candidates. *)
Lemma event_date_of_two (t1 t2 : value) :
  event_date_of [t1; t2]
  = Ok match Datetime.strptime t1 with
       | Ok dt => Some (Datetime.date_isoformat dt)
       | Raise _ =>
           match Datetime.strptime t2 with
           | Ok dt => Some (Datetime.date_isoformat dt)
           | Raise _ => None
           end
       end.
Proof.
  simpl.
  destruct (Datetime.strptime t1) as [dt1 | e1] eqn:E1; [reflexivity|].
  apply strptime_raises in E1 as [-> | ->]; simpl;
    (destruct (Datetime.strptime t2) as [dt2 | e2] eqn:E2; [reflexivity|]);
    apply strptime_raises in E2 as [-> | ->]; reflexivity.
Qed.



(** C8: without rotation [get_index] returns the configured base name,
    whatever the event holds. *)
Theorem get_index_no_rotation (self : parameters) (event_dict : dict) (default : string) :
  rotate_index self = false ->
  get_index self event_dict default = Ok (elastic_index self).
Proof. intros Hrot. unfold get_index. now rewrite Hrot. Qed.

Lemma get_index_no_rotation_witness :
  rotate_index default_parameters = false
  /\ get_index default_parameters
       [("time_source", VStr "2023-05-01T00:00:00+00:00")] "2026-11-04"
     = Ok "intelmq".
Proof.
  split; [reflexivity|].
  apply (get_index_no_rotation default_parameters). reflexivity.
Defined.

(** ** EventSink *)


Example process_store_down :
  process default_parameters store_down [("feed.name", VStr "x")]
  = ([EsIndex "intelmq" "events" [("feed_name", VStr "x")]],
     Raise (OtherError "ConnectionError")).
Proof. reflexivity. Qed.

Example process_store_up :
  process default_parameters quiet_collaborators [("feed.name", VStr "x")]
  = ([EsIndex "intelmq" "events" [("feed_name", VStr "x")]; Acknowledge], Ok tt).
Proof. reflexivity. Qed.


(** C2, as amended: the event
    [{extra: {x.y: 1}, time_source: 2023-05-01T00:00:00+00:00}], with
    rotation, the base name [intelmq], [extra] to flatten and [_] for [.],
    is submitted to [intelmq-2023-05-01] as the document
    [{time_source: 2023-05-01T00:00:00+00:00, extra_x_y: 1}], and
    acknowledged when the store took it. *)
Theorem process_end_to_end (ext : collaborators) (doc_type : string) :
  let self := {| elastic_index := "intelmq"; rotate_index := true;
                 elastic_doctype := doc_type; replacement_char := "_";
                 flatten_fields := ["extra"] |} in
  let event := [("extra", VDict [("x.y", VInt 1)]);
                ("time_source", VStr "2023-05-01T00:00:00+00:00")] in
  let document := [("time_source", VStr "2023-05-01T00:00:00+00:00");
                   ("extra_x_y", VInt 1)] in
  process self ext event
  = match es_index ext "intelmq-2023-05-01" doc_type document with
    | Ok _ => ([EsIndex "intelmq-2023-05-01" doc_type document; Acknowledge], Ok tt)
    | Raise e => ([EsIndex "intelmq-2023-05-01" doc_type document], Raise e)
    end.
Proof. reflexivity. Qed.

(** C2 as stated fails: the document submitted is not [{extra_x_y: 1}], it
    holds the timestamp as well. *)
Lemma process_end_to_end_keeps_timestamp :
  let self := {| elastic_index := "intelmq"; rotate_index := true;
                 elastic_doctype := "events"; replacement_char := "_";
                 flatten_fields := ["extra"] |} in
  let event := [("extra", VDict [("x.y", VInt 1)]);
                ("time_source", VStr "2023-05-01T00:00:00+00:00")] in
  exists body,
    process self quiet_collaborators event
    = ([EsIndex "intelmq-2023-05-01" "events" body; Acknowledge], Ok tt)
    /\ dict_get "time_source" body = Some (VStr "2023-05-01T00:00:00+00:00")
    /\ dict_get "time_source" [("extra_x_y", VInt 1)] = None
    /\ body <> [("extra_x_y", VInt 1)].
Proof.
  eexists. split; [reflexivity|]. split; [reflexivity|]. split; [reflexivity|].
  discriminate.
Qed.

(** ** FieldFlattener *)

Lemma append_inj_l (s t u : string) : s ++ t = s ++ u -> t = u.
Proof. induction s as [|a s IH]; simpl; [auto|]. intros [= H]. auto. Qed.

Lemma length_append (s t : string) :
  String.length (s ++ t) = (String.length s + String.length t)%nat.
Proof. induction s as [|a s IH]; simpl; [reflexivity|]. now rewrite IH. Qed.

(** The name made for a sub-key is never the name of the field. *)
Lemma promoted_name_neq (field key : string) : field ++ "_" ++ key <> field.
Proof.
  intros H. apply (f_equal String.length) in H.
  rewrite length_append in H. simpl in H. lia.
Qed.

Lemma promoted_name_inj (field key key' : string) :
  field ++ "_" ++ key = field ++ "_" ++ key' -> key = key'.
Proof. intros H. apply append_inj_l in H. now injection H. Qed.

Lemma promote_cons (field : string) (kv : string * value) (items event_dict : dict) :
  promote field (kv :: items) event_dict
  = promote field items (dict_set (field ++ "_" ++ fst kv) (snd kv) event_dict).
Proof. reflexivity. Qed.

(** A name that no sub-key makes is left as it was. *)
Lemma promote_get_other (field k : string) (items event_dict : dict) :
  (forall key, In key (keys items) -> k <> field ++ "_" ++ key) ->
  dict_get k (promote field items event_dict) = dict_get k event_dict.
Proof.
  revert event_dict.
  induction items as [|[k0 v0] items IH]; intros event_dict Hk; [reflexivity|].
  rewrite promote_cons, IH by (intros key Hin; apply Hk; now right).
  rewrite dict_get_set. cbn [fst snd].
  destruct (String.eqb (field ++ "_" ++ k0) k) eqn:E; [|reflexivity].
  apply String.eqb_eq in E. exfalso. apply (Hk k0); [now left | now symmetry].
Qed.

(** The name made for a sub-key holds the value of the sub-key. *)
Lemma promote_get_made (field key : string) (val : value) (items event_dict : dict) :
  wf_dict items -> dict_get key items = Some val ->
  dict_get (field ++ "_" ++ key) (promote field items event_dict) = Some val.
Proof.
  unfold wf_dict. revert event_dict.
  induction items as [|[k0 v0] items IH]; intros event_dict Hwf; [discriminate|].
  inversion Hwf as [|? ? Hnotin Hwf']; subst.
  rewrite promote_cons. cbn [dict_get fst snd].
  destruct (String.eqb k0 key) eqn:E.
  - apply String.eqb_eq in E. subst k0. intros [= ->].
    rewrite promote_get_other.
    + now rewrite dict_get_set, String.eqb_refl.
    + intros key' Hin Heq. apply promoted_name_inj in Heq. subst key'. auto.
  - intros Hget. now apply IH.
Qed.

Lemma flatten_app (ext : collaborators) (done rest : list string) (event_dict : dict) :
  flatten ext (done ++ rest)%list event_dict
  = (working <- flatten ext done event_dict ;; flatten ext rest working).
Proof.
  revert event_dict.
  induction done as [|field done IH]; intros event_dict; simpl; [reflexivity|].
  destruct (flatten_field ext event_dict field); simpl; [apply IH | reflexivity].
Qed.

(** The turn of one more field, after those of [done]. *)
Lemma flatten_snoc (ext : collaborators) (done : list string) (field : string)
      (event_dict working : dict) :
  flatten ext done event_dict = Ok working ->
  flatten ext (done ++ [field])%list event_dict = flatten_field ext working field.
Proof.
  intros H. rewrite flatten_app, H. simpl.
  destruct (flatten_field ext working field); reflexivity.
Qed.

Lemma startswith_promoted (field key : string) :
  PyStr.startswith (field ++ "_") (field ++ "_" ++ key) = true.
Proof.
  induction field as [|a field IH]; cbn [append PyStr.startswith].
  - reflexivity.
  - rewrite Ascii.eqb_refl. exact IH.
Qed.

(** What the turn of a field can change: the field and the names made of
    it. *)
Lemma flatten_field_frame (ext : collaborators) (event_dict result : dict)
      (field k : string) :
  flatten_field ext event_dict field = Ok result ->
  k <> field -> PyStr.startswith (field ++ "_") k = false ->
  dict_get k result = dict_get k event_dict.
Proof.
  unfold flatten_field. intros H Hk Hpre.
  destruct (dict_get field event_dict) as [val|]; [|now injection H as <-].
  destruct (try_loads ext val) as [decoded | e]; simpl in H; [|discriminate].
  destruct decoded; try (now injection H as <-).
  injection H as <-. rewrite dict_get_pop.
  destruct (String.eqb field k) eqn:E.
  - apply String.eqb_eq in E. congruence.
  - apply promote_get_other. intros key _ ->.
    rewrite startswith_promoted in Hpre. discriminate.
Qed.

(** The three ways of a turn: the field is not there, it holds no mapping,
    it holds one. *)
Lemma flatten_field_skips (ext : collaborators) (event_dict : dict) (field : string) :
  dict_get field event_dict = None -> flatten_field ext event_dict field = Ok event_dict.
Proof. intros H. unfold flatten_field. now rewrite H. Qed.

Lemma flatten_field_keeps (ext : collaborators) (event_dict : dict) (field : string)
      (val : value) :
  dict_get field event_dict = Some val ->
  decodes_to_no_mapping ext val ->
  flatten_field ext event_dict field = Ok event_dict.
Proof.
  intros Hget Hval. unfold flatten_field. rewrite Hget.
  destruct val; simpl in Hval; try discriminate; try reflexivity.
  simpl. destruct Hval as [(e & -> & ->) | (decoded & -> & Hno)]; [reflexivity|].
  simpl. destruct decoded; try reflexivity. discriminate.
Qed.

Lemma flatten_field_promotes (ext : collaborators) (event_dict : dict) (field : string)
      (val : value) (items : dict) :
  dict_get field event_dict = Some val ->
  try_loads ext val = Ok (VDict items) ->
  flatten_field ext event_dict field
  = Ok (dict_pop field (promote field items event_dict)).
Proof. intros Hget Hval. unfold flatten_field. now rewrite Hget, Hval. Qed.

(** A name that is not there stays away through the turn of a field that
    is not the start of it. *)
Lemma flatten_field_absent (ext : collaborators) (event_dict result : dict)
      (field k : string) :
  flatten_field ext event_dict field = Ok result ->
  dict_get k event_dict = None ->
  PyStr.startswith (field ++ "_") k = false ->
  dict_get k result = None.
Proof.
  intros H Hk Hpre. destruct (string_dec k field) as [-> | Hne].
  - rewrite (flatten_field_skips ext event_dict field Hk) in H. now injection H as <-.
  - now rewrite (flatten_field_frame ext event_dict result field k H Hne Hpre).
Qed.

(** What every turn of a list of fields keeps, the loop keeps. *)
Lemma flatten_keeps (ext : collaborators) (kept : dict -> Prop) (fields : list string)
      (event_dict result : dict) :
  (forall f current next,
      In f fields -> kept current -> flatten_field ext current f = Ok next -> kept next) ->
  kept event_dict ->
  flatten ext fields event_dict = Ok result ->
  kept result.
Proof.
  revert event_dict.
  induction fields as [|f fields IH]; intros event_dict Hstep Hkept H; simpl in H.
  - now injection H as <-.
  - destruct (flatten_field ext event_dict f) as [next | e] eqn:E; simpl in H;
      [|discriminate].
    apply (IH next); [| apply (Hstep f event_dict next); auto; now left | exact H].
    intros f' current next' Hin. apply Hstep. now right.
Qed.

(** The loop leaves alone a name that none of its fields is, or is the
    start of with an underscore. *)
Lemma flatten_leaves_alone (ext : collaborators) (fields : list string)
      (event_dict result : dict) (k : string) :
  (forall f, In f fields -> k <> f /\ PyStr.startswith (f ++ "_") k = false) ->
  flatten ext fields event_dict = Ok result ->
  dict_get k result = dict_get k event_dict.
Proof.
  intros Hk.
  apply (flatten_keeps ext (fun current => dict_get k current = dict_get k event_dict));
    [|reflexivity].
  intros f current next Hin Hcur Hturn.
  destruct (Hk f Hin) as [Hne Hpre].
  now rewrite (flatten_field_frame ext current next f k Hturn Hne Hpre).
Qed.

Lemma flatten_cons_after (ext : collaborators) (done rest : list string) (field : string)
      (event_dict working : dict) :
  flatten ext done event_dict = Ok working ->
  flatten ext (done ++ field :: rest)%list event_dict
  = (turned <- flatten_field ext working field ;; flatten ext rest turned).
Proof. intros H. rewrite flatten_app, H. reflexivity. Qed.

Lemma dict_get_Some_keys (k : string) (v : value) (d : dict) :
  dict_get k d = Some v -> In k (keys d).
Proof.
  intros H. destruct (in_dec string_dec k (keys d)) as [Hin | Hnot]; [exact Hin|].
  apply dict_get_None in Hnot. congruence.
Qed.

Example flatten_mapping :
  flatten quiet_collaborators ["extra"]
          [("extra", VDict [("a", VInt 1); ("b", VInt 2)])]
  = Ok [("extra_a", VInt 1); ("extra_b", VInt 2)].
Proof. reflexivity. Qed.

Example flatten_text_of_mapping :
  flatten (with_decoder [("{a: 1}", VDict [("a", VInt 1)])]) ["extra"]
          [("extra", VStr "{a: 1}")]
  = Ok [("extra_a", VInt 1)].
Proof. reflexivity. Qed.

Example flatten_text_of_list :
  flatten (with_decoder [("[1]", VList [VInt 1])]) ["extra"] [("extra", VStr "[1]")]
  = Ok [("extra", VStr "[1]")].
Proof. reflexivity. Qed.

Example flatten_other_text :
  flatten quiet_collaborators ["extra"] [("extra", VStr "not json")]
  = Ok [("extra", VStr "not json")].
Proof. reflexivity. Qed.

(** An exception of the decoder that is no [ValueError] leaves the loop. *)
Example flatten_decoder_breaks :
  flatten {| loads := fun _ => Raise (OtherError "RecursionError");
             es_index := fun _ _ _ => Ok tt; today := "2026-11-04" |}
          ["extra"] [("extra", VStr "[[[[")]
  = Raise (OtherError "RecursionError").
Proof. reflexivity. Qed.

(** C4, as amended: when the turn of a field of the flatten list comes and
    the event, as the fields before it left it, holds under that field a
    mapping, or a text that decodes to one, the turn does not raise; and when
    no field [f] after it in the list, other than the field itself, has [f_]
    at the start of the name of the field, is a name [field_subkey] or has [f_]
    at the start of one, the result of the whole loop, if the loop ends, has
    not the field and holds under each name [field_subkey] the value of the
    sub-key, whatever was under that name before; every other entry that no
    later field is, or is the start of, is as it was. *)
Theorem flatten_promotes_mapping
        (ext : collaborators) (done rest : list string) (field : string)
        (event_dict working : dict) (val : value) (items : dict) :
  flatten ext done event_dict = Ok working ->
  dict_get field working = Some val ->
  try_loads ext val = Ok (VDict items) ->
  wf_dict items ->
  (forall f, In f rest ->
     f = field
     \/ (PyStr.startswith (f ++ "_") field = false
         /\ forall key, In key (keys items) ->
              f <> field ++ "_" ++ key
              /\ PyStr.startswith (f ++ "_") (field ++ "_" ++ key) = false)) ->
  (exists turned, flatten ext (done ++ [field])%list event_dict = Ok turned)
  /\ forall result,
      flatten ext (done ++ field :: rest)%list event_dict = Ok result ->
      dict_get field result = None
      /\ (forall key value,
            dict_get key items = Some value ->
            dict_get (field ++ "_" ++ key) result = Some value)
      /\ (forall k,
            k <> field ->
            (forall key, In key (keys items) -> k <> field ++ "_" ++ key) ->
            (forall f, In f rest -> k <> f /\ PyStr.startswith (f ++ "_") k = false) ->
            dict_get k result = dict_get k working).
Proof.
  intros Hdone Hget Hval Hwf Hrest.
  pose proof (flatten_field_promotes ext working field val items Hget Hval) as Hturn.
  set (turned := dict_pop field (promote field items working)) in *.
  assert (dict_get field turned = None) as Hgone.
  { unfold turned. now rewrite dict_get_pop, String.eqb_refl. }
  assert (forall key value, dict_get key items = Some value ->
                            dict_get (field ++ "_" ++ key) turned = Some value) as Hmade.
  { intros key value Hkey. unfold turned. rewrite dict_get_pop.
    destruct (String.eqb field (field ++ "_" ++ key)) eqn:E.
    - apply String.eqb_eq in E. symmetry in E. now apply promoted_name_neq in E.
    - now apply promote_get_made. }
  split.
  { exists turned. now rewrite (flatten_snoc _ _ _ _ _ Hdone). }
  intros result Hres.
  rewrite (flatten_cons_after _ _ _ _ _ _ Hdone), Hturn in Hres. cbn [bind] in Hres.
  split; [|split].
  - revert Hres.
    apply (flatten_keeps ext (fun current => dict_get field current = None)); [|exact Hgone].
    intros f current next Hin Hcur Hstep.
    destruct (Hrest f Hin) as [-> | [Hpre _]].
    + rewrite (flatten_field_skips ext current field Hcur) in Hstep. now injection Hstep as <-.
    + now apply (flatten_field_absent ext current next f field).
  - intros key value Hkey.
    apply (flatten_keeps ext
             (fun current => dict_get field current = None
                             /\ dict_get (field ++ "_" ++ key) current = Some value)
             rest turned result); [| split; auto | exact Hres].
    intros f current next Hin [Hcur Hcurk] Hstep.
    destruct (Hrest f Hin) as [-> | [Hpre Hkeys]].
    + rewrite (flatten_field_skips ext current field Hcur) in Hstep.
      injection Hstep as <-. now split.
    + split; [now apply (flatten_field_absent ext current next f field)|].
      destruct (Hkeys key (dict_get_Some_keys _ _ _ Hkey)) as [Hne Hprek].
      rewrite (flatten_field_frame ext current next f _ Hstep); auto.
  - intros k Hk Hother Hlater.
    rewrite (flatten_leaves_alone ext rest turned result k Hlater Hres).
    unfold turned. rewrite dict_get_pop.
    destruct (String.eqb field k) eqn:E.
    + apply String.eqb_eq in E. congruence.
    + now apply promote_get_other.
Qed.

Lemma flatten_promotes_mapping_witness :
  let event := [("extra", VDict [("a", VInt 1); ("b", VInt 2)]);
                ("extra_a", VInt 0); ("raw", VStr "not json")] in
  let result := [("extra_a", VInt 1); ("raw", VStr "not json"); ("extra_b", VInt 2)] in
  flatten quiet_collaborators ["extra"; "raw"] event = Ok result
  /\ dict_get "extra" result = None
  /\ dict_get "extra_a" result = Some (VInt 1)
  /\ dict_get "extra_b" result = Some (VInt 2).
Proof.
  split; [reflexivity|].
  destruct (flatten_promotes_mapping quiet_collaborators [] ["raw"] "extra"
              [("extra", VDict [("a", VInt 1); ("b", VInt 2)]);
               ("extra_a", VInt 0); ("raw", VStr "not json")]
              [("extra", VDict [("a", VInt 1); ("b", VInt 2)]);
               ("extra_a", VInt 0); ("raw", VStr "not json")]
              (VDict [("a", VInt 1); ("b", VInt 2)])
              [("a", VInt 1); ("b", VInt 2)]
              eq_refl eq_refl eq_refl)
    as [_ Hloop].
  - apply nodupb_NoDup. reflexivity.
  - intros f [<- | []]. right. split; [reflexivity|].
    intros key [<- | [<- | []]]; (split; [discriminate | reflexivity]).
  - destruct (Hloop [("extra_a", VInt 1); ("raw", VStr "not json"); ("extra_b", VInt 2)]
                    eq_refl) as (Hgone & Hmade & _).
    split; [exact Hgone|].
    split; [apply (Hmade "a") | apply (Hmade "b")]; reflexivity.
Defined.

(** C4 as stated fails: [extra_x] is in the flatten list and holds a
    mapping, and the result has an entry [extra_x], made by the turn of
    [extra]. *)
Lemma flatten_field_comes_back :
  let event := [("extra_x", VDict [("k", VInt 1)]); ("extra", VDict [("x", VInt 2)])] in
  flatten quiet_collaborators ["extra_x"; "extra"] event
  = Ok [("extra_x_k", VInt 1); ("extra_x", VInt 2)]
  /\ dict_get "extra_x" [("extra_x_k", VInt 1); ("extra_x", VInt 2)] = Some (VInt 2).
Proof. split; reflexivity. Qed.

(** C5, as amended: when the turn of a field of the flatten list comes and
    the event, as the fields before it left it, holds under that field a
    value that is no mapping, being a text that the decoder refuses with a
    [ValueError], or a text that decodes to something that is no mapping,
    or anything else that is neither a text nor a mapping, the turn does
    not raise and leaves the whole event as it was; and when no field [f]
    after it in the list, other than the field itself, has [f_] at the start
    of the name of the field, the result of the whole loop, if the loop ends,
    holds the field under its name with that value. *)
Theorem flatten_keeps_non_mapping
        (ext : collaborators) (done rest : list string) (field : string)
        (event_dict working : dict) (val : value) :
  flatten ext done event_dict = Ok working ->
  dict_get field working = Some val ->
  decodes_to_no_mapping ext val ->
  (forall f, In f rest -> f = field \/ PyStr.startswith (f ++ "_") field = false) ->
  flatten ext (done ++ [field])%list event_dict = Ok working
  /\ forall result,
      flatten ext (done ++ field :: rest)%list event_dict = Ok result ->
      dict_get field result = Some val.
Proof.
  intros Hdone Hget Hval Hrest.
  pose proof (flatten_field_keeps ext working field val Hget Hval) as Hturn.
  split; [now rewrite (flatten_snoc _ _ _ _ _ Hdone)|].
  intros result Hres.
  rewrite (flatten_cons_after _ _ _ _ _ _ Hdone), Hturn in Hres. cbn [bind] in Hres.
  revert Hres.
  apply (flatten_keeps ext (fun current => dict_get field current = Some val));
    [|exact Hget].
  intros f current next Hin Hcur Hstep.
  destruct (string_dec f field) as [-> | Hne].
  - rewrite (flatten_field_keeps ext current field val Hcur Hval) in Hstep.
    now injection Hstep as <-.
  - destruct (Hrest f Hin) as [-> | Hpre]; [contradiction|].
    rewrite (flatten_field_frame ext current next f field Hstep); auto.
Qed.

Lemma flatten_keeps_non_mapping_witness :
  let event := [("extra", VStr "not json"); ("raw", VDict [("a", VInt 1)])] in
  let result := [("extra", VStr "not json"); ("raw_a", VInt 1)] in
  flatten quiet_collaborators ["extra"; "raw"] event = Ok result
  /\ dict_get "extra" result = Some (VStr "not json").
Proof.
  split; [reflexivity|].
  destruct (flatten_keeps_non_mapping quiet_collaborators [] ["raw"] "extra"
              [("extra", VStr "not json"); ("raw", VDict [("a", VInt 1)])]
              [("extra", VStr "not json"); ("raw", VDict [("a", VInt 1)])]
              (VStr "not json") eq_refl eq_refl)
    as [_ Hloop].
  - left. exists JSONDecodeError. split; reflexivity.
  - intros f [<- | []]. right. reflexivity.
  - apply (Hloop [("extra", VStr "not json"); ("raw_a", VInt 1)]). reflexivity.
Defined.

(** C5 as stated fails: [extra_note] is in the flatten list and holds a
    text that does not decode, and the result holds another value under
    it, written by the turn of [extra]. *)
Lemma flatten_field_overwritten :
  let event := [("extra_note", VStr "n/a"); ("extra", VDict [("note", VStr "hello")])] in
  loads quiet_collaborators "n/a" = Raise JSONDecodeError
  /\ flatten quiet_collaborators ["extra_note"; "extra"] event
     = Ok [("extra_note", VStr "hello")].
Proof. split; reflexivity. Qed.

Lemma dict_pop_incl (k : string) (d : dict) : incl (dict_pop k d) d.
Proof. intros kv H. unfold dict_pop in H. now apply filter_In in H. Qed.

(** C10, as amended: when the turn of a field of the flatten list comes
    and the event, as the fields before it left it, holds under that field
    an empty mapping, or a text that decodes to one, the turn does not
    raise, removes the field and does nothing else: no entry is added and
    every other entry is as it was; and when no field [f] after it in the
    list has [f_] at the start of the name of the field, the result of the
    whole loop, if the loop ends, has not the field, and every other entry
    that no later field is, or is the start of, is as it was. *)
Theorem flatten_drops_empty_mapping
        (ext : collaborators) (done rest : list string) (field : string)
        (event_dict working : dict) (val : value) :
  flatten ext done event_dict = Ok working ->
  dict_get field working = Some val ->
  try_loads ext val = Ok (VDict []) ->
  (forall f, In f rest -> PyStr.startswith (f ++ "_") field = false) ->
  (exists turned,
      flatten ext (done ++ [field])%list event_dict = Ok turned
      /\ dict_get field turned = None
      /\ incl turned working
      /\ (forall k, k <> field -> dict_get k turned = dict_get k working))
  /\ forall result,
      flatten ext (done ++ field :: rest)%list event_dict = Ok result ->
      dict_get field result = None
      /\ (forall k,
            k <> field ->
            (forall f, In f rest -> k <> f /\ PyStr.startswith (f ++ "_") k = false) ->
            dict_get k result = dict_get k working).
Proof.
  intros Hdone Hget Hval Hrest.
  pose proof (flatten_field_promotes ext working field val [] Hget Hval) as Hturn.
  change (promote field [] working) with working in Hturn.
  assert (dict_get field (dict_pop field working) = None) as Hgone.
  { now rewrite dict_get_pop, String.eqb_refl. }
  assert (forall k, k <> field ->
                    dict_get k (dict_pop field working) = dict_get k working) as Hothers.
  { intros k Hk. rewrite dict_get_pop.
    destruct (String.eqb field k) eqn:E; [|reflexivity].
    apply String.eqb_eq in E. congruence. }
  split.
  { exists (dict_pop field working).
    split; [now rewrite (flatten_snoc _ _ _ _ _ Hdone)|].
    split; [exact Hgone|]. split; [apply dict_pop_incl | exact Hothers]. }
  intros result Hres.
  rewrite (flatten_cons_after _ _ _ _ _ _ Hdone), Hturn in Hres. cbn [bind] in Hres.
  split.
  - revert Hres.
    apply (flatten_keeps ext (fun current => dict_get field current = None)); [|exact Hgone].
    intros f current next Hin Hcur Hstep.
    now apply (flatten_field_absent ext current next f field Hstep Hcur (Hrest f Hin)).
  - intros k Hk Hlater.
    rewrite (flatten_leaves_alone ext rest _ result k Hlater Hres). now apply Hothers.
Qed.

Lemma flatten_drops_empty_mapping_witness :
  let event := [("extra", VDict []); ("raw", VDict [("a", VInt 1)]); ("feed", VStr "x")] in
  let result := [("feed", VStr "x"); ("raw_a", VInt 1)] in
  flatten quiet_collaborators ["extra"; "raw"] event = Ok result
  /\ dict_get "extra" result = None
  /\ dict_get "feed" result = Some (VStr "x").
Proof.
  split; [reflexivity|].
  destruct (flatten_drops_empty_mapping quiet_collaborators [] ["raw"] "extra"
              [("extra", VDict []); ("raw", VDict [("a", VInt 1)]); ("feed", VStr "x")]
              [("extra", VDict []); ("raw", VDict [("a", VInt 1)]); ("feed", VStr "x")]
              (VDict []) eq_refl eq_refl eq_refl)
    as [_ Hloop].
  - intros f [<- | []]. reflexivity.
  - destruct (Hloop [("feed", VStr "x"); ("raw_a", VInt 1)] eq_refl) as [Hgone Hother].
    split; [exact Hgone|].
    rewrite (Hother "feed"); [reflexivity | discriminate |].
    intros f [<- | []]. split; [discriminate | reflexivity].
Defined.

(** C10 as stated fails: [extra_x] is in the flatten list and holds an
    empty mapping, and the result has an entry [extra_x], made by the turn
    of [extra]. *)
Lemma flatten_empty_field_comes_back :
  let event := [("extra_x", VDict []); ("extra", VDict [("x", VInt 1)])] in
  flatten quiet_collaborators ["extra_x"; "extra"] event = Ok [("extra_x", VInt 1)]
  /\ dict_get "extra_x" [("extra_x", VInt 1)] = Some (VInt 1).
Proof. split; reflexivity. Qed.

(** ** Sanitized keys and the index *)

Lemma append_same (r t : string) : r ++ t = t -> r = EmptyString.
Proof.
  intros H. apply (f_equal String.length) in H. rewrite length_append in H.
  destruct r; [reflexivity | simpl in H; lia].
Qed.

Lemma rename_time_source (r : string) :
  PyStr.replace "time.source" "." r = "time" ++ r ++ "source".
Proof. reflexivity. Qed.

Lemma rename_time_observation (r : string) :
  PyStr.replace "time.observation" "." r = "time" ++ r ++ "observation".
Proof. reflexivity. Qed.

(** [time.source] is renamed to [time_source] by the underscore only. *)
Lemma rename_time_source_iff (r : string) :
  PyStr.replace "time.source" "." r = "time_source" <-> r = "_".
Proof.
  rewrite rename_time_source. split; [|intros ->; reflexivity].
  intros H. apply (append_inj_l "time") in H.
  destruct r as [|a r]; [discriminate|].
  simpl in H. injection H as -> H. apply append_same in H. now subst.
Qed.

Lemma rename_time_observation_iff (r : string) :
  PyStr.replace "time.observation" "." r = "time_observation" <-> r = "_".
Proof.
  rewrite rename_time_observation. split; [|intros ->; reflexivity].
  intros H. apply (append_inj_l "time") in H.
  destruct r as [|a r]; [discriminate|].
  simpl in H. injection H as -> H. apply append_same in H. now subst.
Qed.

Lemma rename_time_source_cross (r : string) :
  PyStr.replace "time.source" "." r <> "time_observation".
Proof.
  rewrite rename_time_source. intros H. apply (append_inj_l "time") in H.
  pose proof (f_equal String.length H) as Hlen.
  rewrite length_append in Hlen. simpl in Hlen.
  destruct r as [|a1 [|a2 [|a3 [|a4 [|a5 [|a6 [|a7 r]]]]]]];
    simpl in Hlen; try lia. discriminate.
Qed.

Lemma rename_time_observation_cross (r : string) :
  PyStr.replace "time.observation" "." r <> "time_source".
Proof.
  rewrite rename_time_observation. intros H. apply (append_inj_l "time") in H.
  apply (f_equal String.length) in H. rewrite length_append in H. simpl in H. lia.
Qed.

Lemma replace_keys_renamed_keys (key_char replacement : string) (d : dict) (k : string) :
  In k (keys (fold_left (rename_step key_char replacement) d [])) ->
  exists k0, In k0 (keys d) /\ k = PyStr.replace k0 key_char replacement.
Proof.
  unfold keys. intros H. apply in_map_iff in H as [[k' v'] [<- Hin]].
  apply rename_fold_In in Hin as [[] | [kv [Hkv Heq]]].
  exists (fst kv). split; [now apply in_map|].
  unfold renamed in Heq. now injection Heq.
Qed.

(** C9, as amended: [time.source] and [time.observation] are renamed to
    [time_source] and [time_observation] by the replacement [_] and by no
    other; so when the replacement is not [_] and no other key of the event
    is renamed to [time_source] or [time_observation], the sanitized
    document has neither key and, with rotation, [get_index] returns the
    base name, a dash and the default of the caller. *)
Theorem rotation_falls_back
        (self : parameters) (event_dict : dict) (default : string) :
  rotate_index self = true ->
  replacement_char self <> "_" ->
  (forall k, In k (keys event_dict) ->
             k <> "time.source" -> k <> "time.observation" ->
             PyStr.replace k "." (replacement_char self) <> "time_source"
             /\ PyStr.replace k "." (replacement_char self) <> "time_observation") ->
  (forall r, PyStr.replace "time.source" "." r = "time_source" <-> r = "_")
  /\ (forall r, PyStr.replace "time.observation" "." r = "time_observation" <-> r = "_")
  /\ exists document,
      replace_keys (VDict event_dict) "." (replacement_char self) = VDict document
      /\ dict_get "time_source" document = None
      /\ dict_get "time_observation" document = None
      /\ get_index self document default = Ok (elastic_index self ++ "-" ++ default).
Proof.
  intros Hrot Hr Hkeys.
  split; [exact rename_time_source_iff|]. split; [exact rename_time_observation_iff|].
  exists (fold_left (rename_step "." (replacement_char self)) event_dict []).
  assert (forall name, name = "time_source" \/ name = "time_observation" ->
          dict_get name (fold_left (rename_step "." (replacement_char self)) event_dict [])
          = None) as Hnone.
  { intros name Hname. apply dict_get_None. intros Hin.
    apply replace_keys_renamed_keys in Hin as (k0 & Hk0 & Heq).
    destruct (string_dec k0 "time.source") as [-> | Hs].
    { destruct Hname as [-> | ->].
      - symmetry in Heq. apply rename_time_source_iff in Heq. contradiction.
      - symmetry in Heq. now apply rename_time_source_cross in Heq. }
    destruct (string_dec k0 "time.observation") as [-> | Ho].
    { destruct Hname as [-> | ->].
      - symmetry in Heq. now apply rename_time_observation_cross in Heq.
      - symmetry in Heq. apply rename_time_observation_iff in Heq. contradiction. }
    destruct (Hkeys k0 Hk0 Hs Ho) as [H1 H2].
    destruct Hname as [-> | ->]; congruence. }
  split; [apply replace_keys_dict|].
  split; [apply Hnone; now left|]. split; [apply Hnone; now right|].
  unfold get_index, get_or_None. rewrite Hrot.
  rewrite (Hnone "time_source") by now left.
  rewrite (Hnone "time_observation") by now right.
  reflexivity.
Qed.

Lemma rotation_falls_back_witness :
  let self := {| elastic_index := "intelmq"; rotate_index := true;
                 elastic_doctype := "events"; replacement_char := "-";
                 flatten_fields := ["extra"] |} in
  let event_dict := [("time.source", VStr "2023-05-01T00:00:00+00:00");
                     ("time.observation", VStr "2023-05-02T00:00:00+00:00");
                     ("feed.name", VStr "x")] in
  exists document,
    replace_keys (VDict event_dict) "." "-" = VDict document
    /\ get_index self document "2026-11-04" = Ok "intelmq-2026-11-04".
Proof.
  destruct (rotation_falls_back
              {| elastic_index := "intelmq"; rotate_index := true;
                 elastic_doctype := "events"; replacement_char := "-";
                 flatten_fields := ["extra"] |}
              [("time.source", VStr "2023-05-01T00:00:00+00:00");
               ("time.observation", VStr "2023-05-02T00:00:00+00:00");
               ("feed.name", VStr "x")]
              "2026-11-04" eq_refl)
    as (_ & _ & document & Hdoc & _ & _ & Hidx).
  - discriminate.
  - intros k [<- | [<- | [<- | []]]] Hs Ho; simpl in *; try congruence.
    split; discriminate.
  - exists document. split; [exact Hdoc | exact Hidx].
Defined.

(** C9 as stated fails: every key of the event holds the illegal character,
    the replacement is not [_], and the index still takes its date from the
    event, for a key is renamed to [time_source]. *)
Lemma rotation_finds_renamed_key :
  let self := {| elastic_index := "intelmq"; rotate_index := true;
                 elastic_doctype := "events"; replacement_char := "e";
                 flatten_fields := ["extra"] |} in
  let event_dict := [("time.source", VStr "2023-05-01T00:00:00+00:00");
                     ("time.observation", VStr "2023-05-01T00:00:00+00:00");
                     ("tim._source", VStr "2024-01-01T00:00:00+00:00")] in
  replacement_char self <> "_"
  /\ forallb (PyStr.contains ".") (keys event_dict) = true
  /\ today quiet_collaborators = "2026-11-04"
  /\ exists body,
      process self quiet_collaborators event_dict
      = ([EsIndex "intelmq-2024-01-01" "events" body; Acknowledge], Ok tt)
      /\ "intelmq-2024-01-01" <> "intelmq-2026-11-04".
Proof.
  split; [discriminate|]. split; [reflexivity|]. split; [reflexivity|].
  eexists. split; [reflexivity | discriminate].
Qed.

(** * Further properties *)

(** ** KeySanitizer, further *)

Lemma replace_char_without (c : ascii) (r s : string) :
  PyStr.contains c s = false -> PyStr.replace s (PyStr.chr c) r = s.
Proof.
  unfold PyStr.replace, PyStr.chr.
  induction s as [|a s IH]; simpl; [reflexivity|].
  intros H. apply orb_false_iff in H as [E H].
  rewrite E. simpl. now rewrite IH.
Qed.

Lemma NoDup_nodupb (l : list string) : NoDup l -> nodupb l = true.
Proof.
  induction 1 as [|x l Hnotin Hnd IH]; simpl; [reflexivity|].
  rewrite IH, andb_true_r. apply negb_true_iff.
  destruct (existsb (String.eqb x) l) eqn:E; [|reflexivity].
  apply existsb_exists in E as [y [Hy E]]. apply String.eqb_eq in E. now subst.
Qed.

Lemma keys_dict_set (k : string) (v : value) (d : dict) :
  keys (dict_set k v d)
  = match dict_get k d with Some _ => keys d | None => (keys d ++ [k])%list end.
Proof.
  induction d as [|[k0 v0] d IH]; simpl; [reflexivity|].
  destruct (String.eqb k0 k) eqn:E; simpl; [reflexivity|].
  rewrite IH. destruct (dict_get k d); reflexivity.
Qed.

Lemma wf_dict_set (k : string) (v : value) (d : dict) :
  wf_dict d -> wf_dict (dict_set k v d).
Proof.
  unfold wf_dict. intros H. rewrite keys_dict_set.
  destruct (dict_get k d) eqn:E; [exact H|].
  apply dict_get_None in E.
  apply NoDup_app; [exact H | repeat constructor; intros [] | ].
  intros x Hx [<- | []]. contradiction.
Qed.

Lemma unique_keys_dict (d : dict) :
  unique_keys (VDict d)
  = nodupb (map fst d) && forallb (fun kv => unique_keys (snd kv)) d.
Proof. reflexivity. Qed.

Lemma rename_fold_unique (key_char replacement : string) (d acc : dict) :
  Forall (fun kv => unique_keys (replace_keys (snd kv) key_char replacement) = true) d ->
  wf_dict acc -> forallb (fun kv => unique_keys (snd kv)) acc = true ->
  wf_dict (fold_left (rename_step key_char replacement) d acc)
  /\ forallb (fun kv => unique_keys (snd kv))
             (fold_left (rename_step key_char replacement) d acc) = true.
Proof.
  revert acc.
  induction d as [|kv d IH]; intros acc Hd Hwf Hacc; simpl; [now split|].
  inversion Hd as [|? ? Hkv Hd']; subst.
  apply IH; [exact Hd' | now apply wf_dict_set |].
  unfold rename_step. apply forallb_dict_set; [exact Hkv | exact Hacc].
Qed.

(** Whatever it is given, [replace_keys] returns mappings that have no key
    twice. *)
Lemma replace_keys_unique (key_char replacement : string) (obj : value) :
  unique_keys (replace_keys obj key_char replacement) = true.
Proof.
  induction obj as [v Hv | d IH] using value_mapping_ind.
  - rewrite replace_keys_leaf by exact Hv. destruct v; try reflexivity; discriminate.
  - rewrite replace_keys_dict, unique_keys_dict.
    destruct (rename_fold_unique key_char replacement d [] IH) as [Hwf Hsub];
      [constructor | reflexivity |].
    rewrite Hsub, andb_true_r. apply NoDup_nodupb. exact Hwf.
Qed.

Lemma replace_keys_clean (c : ascii) (r : string) (obj : value) :
  PyStr.contains c r = false ->
  keys_clean c (replace_keys obj (PyStr.chr c) r) = true.
Proof.
  intros Hr.
  induction obj as [v Hv | d IH] using value_mapping_ind.
  - rewrite replace_keys_leaf by exact Hv. destruct v; try reflexivity; discriminate.
  - rewrite replace_keys_dict. apply rename_fold_clean; auto.
Qed.

(** A structure without a key to rename is a fixed point. *)
Lemma replace_keys_fixed_point (c : ascii) (r : string) (obj : value) :
  unique_keys obj = true ->
  keys_clean c obj = true ->
  replace_keys obj (PyStr.chr c) r = obj.
Proof.
  induction obj as [v Hv | d IH] using value_mapping_ind; intros Hu Hc.
  - now apply replace_keys_leaf.
  - rewrite unique_keys_dict in Hu. apply andb_true_iff in Hu as [Hnd Hu].
    rewrite keys_clean_dict in Hc.
    rewrite forallb_forall in Hu, Hc. rewrite Forall_forall in IH.
    rewrite replace_keys_dict, rename_fold_fresh; [| | intros ? ? []].
    + simpl. f_equal. rewrite <- (map_id d) at 2. apply map_ext_in.
      intros [k v] Hin. specialize (Hc _ Hin).
      apply andb_true_iff in Hc as [Hk Hv]. apply negb_true_iff in Hk.
      pose proof (IH _ Hin (Hu _ Hin) Hv) as E.
      unfold renamed. cbn [fst snd] in *.
      now rewrite (replace_char_without c r k Hk), E.
    + assert (map (fun kv => PyStr.replace (fst kv) (PyStr.chr c) r) d = map fst d) as ->.
      { apply map_ext_in. intros [k v] Hin. specialize (Hc _ Hin).
        apply andb_true_iff in Hc as [Hk _]. apply negb_true_iff in Hk.
        apply (replace_char_without c r k Hk). }
      apply nodupb_NoDup. exact Hnd.
Qed.

(** X1: a structure whose mappings have no key twice and no key with the
    illegal character is returned as it is. *)
Theorem replace_keys_fixes_clean (c : ascii) (r : string) (obj : value) :
  unique_keys obj = true ->
  keys_clean c obj = true ->
  replace_keys obj (PyStr.chr c) r = obj.
Proof. intros Hu Hc. now apply replace_keys_fixed_point. Qed.

Lemma replace_keys_fixes_clean_witness :
  let m := VDict [("a_b", VDict [("c", VInt 1)]); ("l", VList [VDict [("e.f", VNone)]])] in
  replace_keys m "." "_" = m.
Proof.
  apply (replace_keys_fixes_clean "." "_"); reflexivity.
Defined.

(** X2: when the replacement does not hold the illegal character,
    sanitizing what was sanitized changes nothing. *)
Theorem replace_keys_idempotent (c : ascii) (r : string) (obj : value) :
  PyStr.contains c r = false ->
  replace_keys (replace_keys obj (PyStr.chr c) r) (PyStr.chr c) r
  = replace_keys obj (PyStr.chr c) r.
Proof.
  intros Hr.
  apply replace_keys_fixed_point; [apply replace_keys_unique | now apply replace_keys_clean].
Qed.

Lemma replace_keys_idempotent_witness :
  let m := VDict [("a.b", VInt 1); ("a_b", VDict [("c.d", VInt 2)])] in
  replace_keys (replace_keys m "." "_") "." "_" = replace_keys m "." "_".
Proof.
  apply (replace_keys_idempotent "." "_"). reflexivity.
Defined.

Lemma rename_fold_get (key_char replacement name : string) (d acc : dict) :
  dict_get name (fold_left (rename_step key_char replacement) d acc)
  = match fold_left
            (fun found kv =>
               if String.eqb (PyStr.replace (fst kv) key_char replacement) name
               then Some (snd kv) else found) d None with
    | Some v => Some (replace_keys v key_char replacement)
    | None => dict_get name acc
    end.
Proof.
  revert acc.
  induction d as [|kv d IH] using rev_ind; intros acc; [reflexivity|].
  rewrite !fold_left_app. simpl. unfold rename_step at 1.
  rewrite dict_get_set.
  destruct (String.eqb (PyStr.replace (fst kv) key_char replacement) name);
    [reflexivity | apply IH].
Qed.

(** X3: under a name, the sanitized mapping holds the sanitized value of the
    last entry whose key is renamed to that name, and nothing when no key
    is. *)
Theorem replace_keys_last_wins (key_char replacement name : string) (d : dict) :
  exists document,
    replace_keys (VDict d) key_char replacement = VDict document
    /\ dict_get name document
       = match last_renamed_to key_char replacement name d with
         | Some v => Some (replace_keys v key_char replacement)
         | None => None
         end.
Proof.
  exists (fold_left (rename_step key_char replacement) d []).
  split; [apply replace_keys_dict|].
  unfold last_renamed_to. now rewrite rename_fold_get.
Qed.

(** ** FieldFlattener, further *)

Lemma startswith_append (p s : string) : PyStr.startswith p (p ++ s) = true.
Proof.
  induction p as [|a p IH]; simpl; [reflexivity|].
  now rewrite Ascii.eqb_refl, IH.
Qed.

(** X4: the loop leaves alone every entry whose name is neither a field of
    the flatten list nor a field of it followed by an underscore and
    more. *)
Theorem flatten_frame (ext : collaborators) (fields : list string)
        (event_dict result : dict) (k : string) :
  (forall field, In field fields ->
                 k <> field /\ PyStr.startswith (field ++ "_") k = false) ->
  flatten ext fields event_dict = Ok result ->
  dict_get k result = dict_get k event_dict.
Proof.
  revert event_dict.
  induction fields as [|field fields IH]; intros event_dict Hk H; simpl in H.
  - now injection H as <-.
  - destruct (flatten_field ext event_dict field) as [working|e] eqn:E;
      simpl in H; [|discriminate].
    destruct (Hk field (or_introl eq_refl)) as [Hne Hpre].
    rewrite (IH working); [| intros f Hf; apply Hk; now right | exact H].
    now apply (flatten_field_frame ext event_dict working field).
Qed.

Lemma flatten_frame_witness :
  let event := [("extra", VDict [("a", VInt 1)]);
                ("time_source", VStr "2023-05-01T00:00:00+00:00")] in
  dict_get "time_source" [("time_source", VStr "2023-05-01T00:00:00+00:00");
                          ("extra_a", VInt 1)]
  = dict_get "time_source" event.
Proof.
  apply (flatten_frame quiet_collaborators ["extra"]
           [("extra", VDict [("a", VInt 1)]);
            ("time_source", VStr "2023-05-01T00:00:00+00:00")]).
  - intros field [<- | []]. split; [discriminate | reflexivity].
  - reflexivity.
Defined.

(** X5: an event that has none of the fields of the flatten list goes
    through the loop unchanged, and the decoder is not consulted. *)
Theorem flatten_absent_fields (ext : collaborators) (fields : list string)
        (event_dict : dict) :
  (forall field, In field fields -> dict_get field event_dict = None) ->
  flatten ext fields event_dict = Ok event_dict.
Proof.
  induction fields as [|field fields IH]; intros H; simpl; [reflexivity|].
  unfold flatten_field. rewrite (H field) by now left. simpl.
  apply IH. intros f Hf. apply H. now right.
Qed.

Lemma flatten_absent_fields_witness :
  flatten store_down ["extra"; "raw"] [("feed.name", VStr "x")]
  = Ok [("feed.name", VStr "x")].
Proof.
  apply flatten_absent_fields.
  intros field [<- | [<- | []]]; reflexivity.
Defined.

Lemma try_loads_total (ext : collaborators) (val : value) :
  decoder_raises_ValueError_only ext -> exists decoded, try_loads ext val = Ok decoded.
Proof.
  intros Hd. destruct val; simpl; eauto.
  destruct (loads ext s) as [decoded | e] eqn:E; [eauto|].
  rewrite (Hd s e E). eauto.
Qed.

Lemma flatten_field_total (ext : collaborators) (event_dict : dict) (field : string) :
  decoder_raises_ValueError_only ext ->
  exists result, flatten_field ext event_dict field = Ok result.
Proof.
  intros Hd. unfold flatten_field.
  destruct (dict_get field event_dict) as [val|]; [|eauto].
  destruct (try_loads_total ext val Hd) as [decoded ->]. simpl.
  destruct decoded; eauto.
Qed.

Lemma flatten_total (ext : collaborators) (fields : list string) (event_dict : dict) :
  decoder_raises_ValueError_only ext ->
  exists result, flatten ext fields event_dict = Ok result.
Proof.
  intros Hd. revert event_dict.
  induction fields as [|field fields IH]; intros event_dict; simpl; [eauto|].
  destruct (flatten_field_total ext event_dict field Hd) as [working ->]. simpl.
  apply IH.
Qed.

(** X6: when the decoder raises nothing but [ValueError]s, the loop ends
    without an exception, for every event and every flatten list; an
    exception of the decoder that is no [ValueError] leaves the loop at the
    first text it meets. *)
Theorem flatten_swallows_ValueError (ext : collaborators) (fields : list string)
        (event_dict : dict) :
  (decoder_raises_ValueError_only ext ->
   exists result, flatten ext fields event_dict = Ok result)
  /\ (forall field rest s e,
        fields = field :: rest ->
        dict_get field event_dict = Some (VStr s) ->
        loads ext s = Raise e -> isinstance_ValueError e = false ->
        flatten ext fields event_dict = Raise e).
Proof.
  split; [apply flatten_total|].
  intros field rest s e -> Hget Hl He. simpl. unfold flatten_field.
  rewrite Hget. simpl. now rewrite Hl, He.
Qed.

Lemma flatten_swallows_ValueError_witness :
  (exists result,
      flatten quiet_collaborators ["extra"; "raw"]
              [("extra", VStr "not json"); ("raw", VStr "nor this")] = Ok result)
  /\ flatten {| loads := fun _ => Raise (OtherError "RecursionError");
               es_index := fun _ _ _ => Ok tt; today := "2026-11-04" |}
             ["extra"] [("extra", VStr "[[[[")]
     = Raise (OtherError "RecursionError").
Proof.
  split.
  - apply (proj1 (flatten_swallows_ValueError quiet_collaborators ["extra"; "raw"]
                    [("extra", VStr "not json"); ("raw", VStr "nor this")])).
    intros s e [= <-]. reflexivity.
  - apply (proj2 (flatten_swallows_ValueError
                    {| loads := fun _ => Raise (OtherError "RecursionError");
                       es_index := fun _ _ _ => Ok tt; today := "2026-11-04" |}
                    ["extra"] [("extra", VStr "[[[[")])
                 "extra" [] "[[[[" (OtherError "RecursionError"));
      reflexivity.
Defined.

(** ** IndexResolver, further *)

Lemma re_S_pad2_leap (n : Z) (rest : string) :
  (0 <= n <= 61)%Z ->
  hd_error (Datetime.re_S (Datetime.pad2 n ++ rest)) = Some (n, rest).
Proof.
  intros H. revert rest. pattern n. apply (DatetimeFacts.bounded_cases _ 0 61); [|lia].
  clear. intros k Hk rest.
  do 62 (destruct k as [|k]; [reflexivity|]). lia.
Qed.

Lemma writable_bounds (f : Datetime.fields) :
  writable f = true ->
  (0 <= Datetime.f_Y f <= 9999 /\ 1 <= Datetime.f_m f <= 12
   /\ 1 <= Datetime.f_d f <= 31 /\ 0 <= Datetime.f_H f <= 23
   /\ 0 <= Datetime.f_M f <= 59 /\ 0 <= Datetime.f_S f <= 61)%Z.
Proof.
  unfold writable. rewrite !andb_true_iff, !Z.leb_le. tauto.
Qed.

(** A timestamp written from such fields matches the expression of the
    format, and these are the fields read. *)
Lemma format_regex_written (f : Datetime.fields) :
  writable f = true ->
  hd_error (Datetime.format_regex (Datetime.timestamp f)) = Some (f, EmptyString).
Proof.
  intros Hw. apply writable_bounds in Hw as (HY & Hm & Hd & HH & HM & HS).
  destruct f as [Y m d H M S]. cbn [Datetime.f_Y Datetime.f_m Datetime.f_d
                                   Datetime.f_H Datetime.f_M Datetime.f_S] in *.
  unfold Datetime.timestamp, Datetime.format_regex.
  cbn [Datetime.f_Y Datetime.f_m Datetime.f_d Datetime.f_H Datetime.f_M Datetime.f_S].
  eapply DatetimeFacts.hd_and_then; [apply DatetimeFacts.re_Y_pad4; lia|].
  eapply DatetimeFacts.hd_and_then; [reflexivity|].
  eapply DatetimeFacts.hd_and_then; [apply DatetimeFacts.re_m_pad2; lia|].
  eapply DatetimeFacts.hd_and_then; [reflexivity|].
  eapply DatetimeFacts.hd_and_then; [apply DatetimeFacts.re_d_pad2; lia|].
  eapply DatetimeFacts.hd_and_then; [reflexivity|].
  eapply DatetimeFacts.hd_and_then; [apply DatetimeFacts.re_H_pad2; lia|].
  eapply DatetimeFacts.hd_and_then; [reflexivity|].
  eapply DatetimeFacts.hd_and_then; [apply DatetimeFacts.re_M_pad2; lia|].
  eapply DatetimeFacts.hd_and_then; [reflexivity|].
  eapply DatetimeFacts.hd_and_then; [apply re_S_pad2_leap; lia|].
  reflexivity.
Qed.

Lemma get_index_total (self : parameters) (event_dict : dict) (default : string) :
  exists index, get_index self event_dict default = Ok index.
Proof.
  unfold get_index. destruct (rotate_index self); [|eauto].
  rewrite event_date_of_two. simpl. eauto.
Qed.

(** X7: a [time_source] written in the format whose fields are no date and
    time that exist (the 30th of February, the year 0000, a second 60 or 61)
    is refused with a [ValueError], and with rotation [get_index] takes the
    date of [time_observation], or the default, as if [time_source] were not
    there. *)
Theorem get_index_skips_impossible_date
        (self : parameters) (event_dict : dict) (default : string)
        (f : Datetime.fields) :
  rotate_index self = true ->
  writable f = true -> Datetime.valid f = false ->
  dict_get "time_source" event_dict = Some (VStr (Datetime.timestamp f)) ->
  Datetime.strptime (VStr (Datetime.timestamp f)) = Raise ValueError
  /\ get_index self event_dict default
     = Ok (elastic_index self ++ "-" ++
           match Datetime.strptime (get_or_None "time_observation" event_dict) with
           | Ok dt => Datetime.date_isoformat dt
           | Raise _ => default
           end).
Proof.
  intros Hrot Hw Hv Hget.
  assert (Datetime.strptime (VStr (Datetime.timestamp f)) = Raise ValueError) as Hs.
  { unfold Datetime.strptime. pose proof (format_regex_written f Hw) as Hhd.
    destruct (Datetime.format_regex (Datetime.timestamp f)) as [|[found rest] tl];
      [discriminate|].
    injection Hhd as -> ->. now rewrite Hv. }
  split; [exact Hs|].
  unfold get_index. rewrite Hrot, event_date_of_two.
  unfold get_or_None at 1. rewrite Hget, Hs. simpl.
  destruct (Datetime.strptime (get_or_None "time_observation" event_dict)); reflexivity.
Qed.

Lemma get_index_skips_impossible_date_witness :
  let self := {| elastic_index := "intelmq"; rotate_index := true;
                 elastic_doctype := "events"; replacement_char := "_";
                 flatten_fields := ["extra"] |} in
  get_index self [("time_source", VStr "2023-02-30T10:00:60+00:00");
                  ("time_observation", VStr "2023-03-02T00:00:00+00:00")] "2026-11-04"
  = Ok "intelmq-2023-03-02".
Proof.
  exact (proj2 (get_index_skips_impossible_date
                  {| elastic_index := "intelmq"; rotate_index := true;
                     elastic_doctype := "events"; replacement_char := "_";
                     flatten_fields := ["extra"] |}
                  [("time_source", VStr "2023-02-30T10:00:60+00:00");
                   ("time_observation", VStr "2023-03-02T00:00:00+00:00")]
                  "2026-11-04" (Datetime.Fields 2023 2 30 10 0 60)
                  eq_refl eq_refl eq_refl eq_refl)).
Defined.

Lemma last_renamed_none (key_char replacement name : string) (d : dict)
      (found : option value) :
  (forall k, In k (keys d) -> PyStr.replace k key_char replacement <> name) ->
  fold_left
    (fun found kv =>
       if String.eqb (PyStr.replace (fst kv) key_char replacement) name
       then Some (snd kv) else found) d found
  = found.
Proof.
  revert found.
  induction d as [|[k v] d IH]; intros found H; simpl; [reflexivity|].
  destruct (String.eqb (PyStr.replace k key_char replacement) name) eqn:E.
  - apply String.eqb_eq in E. exfalso. apply (H k); [now left | exact E].
  - apply IH. intros k' Hk'. apply H. now right.
Qed.

Lemma last_renamed_only (key_char replacement name k0 : string) (v : value)
      (d : dict) (found : option value) :
  wf_dict d -> dict_get k0 d = Some v ->
  PyStr.replace k0 key_char replacement = name ->
  (forall k, In k (keys d) -> k <> k0 -> PyStr.replace k key_char replacement <> name) ->
  fold_left
    (fun found kv =>
       if String.eqb (PyStr.replace (fst kv) key_char replacement) name
       then Some (snd kv) else found) d found
  = Some v.
Proof.
  unfold wf_dict. revert found.
  induction d as [|[k v'] d IH]; intros found Hwf Hget Hk0 Hother; [discriminate|].
  inversion Hwf as [|? ? Hnotin Hwf']; subst.
  simpl in Hget |- *. destruct (String.eqb k k0) eqn:E.
  - apply String.eqb_eq in E. subst k. injection Hget as ->.
    rewrite String.eqb_refl. apply last_renamed_none.
    intros k Hk. apply Hother; [now right|]. intros ->. contradiction.
  - apply String.eqb_neq in E.
    destruct (String.eqb (PyStr.replace k key_char replacement)
                         (PyStr.replace k0 key_char replacement)) eqn:E';
      [apply String.eqb_eq in E'; exfalso; apply (Hother k); auto; now left|].
    apply IH; auto. intros k' Hk'. apply Hother. now right.
Qed.

(** X8: with the replacement [_] and rotation, an event that holds a
    timestamp written in the format, with a date and time that exist, under
    [time.source], and no other key that is renamed to [time_source], is
    sent to the index of the date of that timestamp. *)
Theorem rotation_follows_time_source
        (self : parameters) (event_dict : dict) (default : string)
        (f : Datetime.fields) :
  rotate_index self = true ->
  replacement_char self = "_" ->
  wf_dict event_dict ->
  Datetime.valid f = true ->
  dict_get "time.source" event_dict = Some (VStr (Datetime.timestamp f)) ->
  (forall k, In k (keys event_dict) -> k <> "time.source" ->
             PyStr.replace k "." "_" <> "time_source") ->
  exists document,
    replace_keys (VDict event_dict) "." (replacement_char self) = VDict document
    /\ get_index self document default
       = Ok (elastic_index self ++ "-" ++ Datetime.date_isoformat f).
Proof.
  intros Hrot Hr Hwf Hv Hget Hother. rewrite Hr.
  exists (fold_left (rename_step "." "_") event_dict []).
  split; [apply replace_keys_dict|].
  unfold get_index. rewrite Hrot, event_date_of_two.
  unfold get_or_None at 1. rewrite rename_fold_get.
  rewrite (last_renamed_only "." "_" "time_source" "time.source"
             (VStr (Datetime.timestamp f)) event_dict None Hwf Hget eq_refl Hother).
  cbn [replace_keys].
  now rewrite (DatetimeFacts.strptime_timestamp f Hv).
Qed.

Lemma rotation_follows_time_source_witness :
  let self := {| elastic_index := "intelmq"; rotate_index := true;
                 elastic_doctype := "events"; replacement_char := "_";
                 flatten_fields := ["extra"] |} in
  exists document,
    replace_keys (VDict [("feed.name", VStr "x");
                         ("time.source", VStr "2023-05-01T00:00:00+00:00")]) "." "_"
    = VDict document
    /\ get_index self document "2026-11-04" = Ok "intelmq-2023-05-01".
Proof.
  apply (rotation_follows_time_source
           {| elastic_index := "intelmq"; rotate_index := true;
              elastic_doctype := "events"; replacement_char := "_";
              flatten_fields := ["extra"] |}
           [("feed.name", VStr "x");
            ("time.source", VStr "2023-05-01T00:00:00+00:00")]
           "2026-11-04" (Datetime.Fields 2023 5 1 0 0 0)); try reflexivity.
  - apply nodupb_NoDup. reflexivity.
  - intros k [<- | [<- | []]] Hk; simpl in *; [discriminate | congruence].
Defined.

(** ** EventSink, further *)

(** [process], once the loop of the flattener has ended. *)
Lemma process_after_flatten (self : parameters) (ext : collaborators)
      (event_dict flat : dict) :
  flatten ext (flatten_fields self) event_dict = Ok flat ->
  process self ext event_dict
  = let body := fold_left (rename_step "." (replacement_char self)) flat [] in
    match get_index self body (today ext) with
    | Raise e => ([], Raise e)
    | Ok index =>
        match es_index ext index (elastic_doctype self) body with
        | Raise e => ([EsIndex index (elastic_doctype self) body], Raise e)
        | Ok _ => ([EsIndex index (elastic_doctype self) body; Acknowledge], Ok tt)
        end
    end.
Proof.
  intros H. unfold process. rewrite H, replace_keys_dict. reflexivity.
Qed.

Lemma process_before_flatten (self : parameters) (ext : collaborators)
      (event_dict : dict) (e : exn) :
  flatten ext (flatten_fields self) event_dict = Raise e ->
  process self ext event_dict = ([], Raise e).
Proof. intros H. unfold process. now rewrite H. Qed.

(** X9: when the decoder raises nothing but [ValueError]s, [process] writes
    every event to the store, once: a text that does not decode never keeps
    an event from being sent.  The call ends as the write ends. *)
Theorem process_writes_once (self : parameters) (ext : collaborators)
        (event_dict : dict) :
  decoder_raises_ValueError_only ext ->
  exists index body,
    process self ext event_dict
    = match es_index ext index (elastic_doctype self) body with
      | Ok _ => ([EsIndex index (elastic_doctype self) body; Acknowledge], Ok tt)
      | Raise e => ([EsIndex index (elastic_doctype self) body], Raise e)
      end.
Proof.
  intros Hd.
  destruct (flatten_total ext (flatten_fields self) event_dict Hd) as [flat Hflat].
  rewrite (process_after_flatten _ _ _ _ Hflat). cbv zeta.
  destruct (get_index_total self
              (fold_left (rename_step "." (replacement_char self)) flat [])
              (today ext)) as [index ->].
  exists index, (fold_left (rename_step "." (replacement_char self)) flat []).
  destruct (es_index ext index (elastic_doctype self) _); reflexivity.
Qed.

Lemma process_writes_once_witness :
  exists index body,
    process default_parameters store_down [("extra", VStr "not json")]
    = match es_index store_down index (elastic_doctype default_parameters) body with
      | Ok _ =>
          ([EsIndex index (elastic_doctype default_parameters) body; Acknowledge], Ok tt)
      | Raise e => ([EsIndex index (elastic_doctype default_parameters) body], Raise e)
      end.
Proof.
  apply (process_writes_once default_parameters store_down).
  intros s e [= <-]. reflexivity.
Defined.

(** X10: when the replacement does not hold a dot, no key of a document
    that [process] writes holds a dot, at any depth reached through the
    values of mappings: the names made by the flattener are sanitized with the
    rest. *)
Theorem process_documents_clean (self : parameters) (ext : collaborators)
        (event_dict : dict) :
  PyStr.contains "." (replacement_char self) = false ->
  forall body,
    In body (written (fst (process self ext event_dict))) ->
    keys_clean "." (VDict body) = true.
Proof.
  intros Hr body Hin.
  destruct (flatten ext (flatten_fields self) event_dict) as [flat | e] eqn:Hflat.
  - rewrite (process_after_flatten _ _ _ _ Hflat) in Hin. cbv zeta in Hin.
    assert (keys_clean "." (VDict (fold_left (rename_step "." (replacement_char self))
                                             flat [])) = true) as Hclean.
    { rewrite <- replace_keys_dict. now apply (replace_keys_clean "."%char). }
    destruct (get_index self _ (today ext)) as [index | e]; [|destruct Hin].
    destruct (es_index ext index (elastic_doctype self) _);
      simpl in Hin; destruct Hin as [<- | []]; exact Hclean.
  - rewrite (process_before_flatten _ _ _ _ Hflat) in Hin. destruct Hin.
Qed.

Lemma process_documents_clean_witness :
  keys_clean "." (VDict [("feed_name", VStr "x"); ("extra_a_b", VDict [("c_d", VInt 1)])])
  = true.
Proof.
  apply (process_documents_clean default_parameters quiet_collaborators
           [("feed.name", VStr "x"); ("extra", VDict [("a.b", VDict [("c.d", VInt 1)])])]).
  - reflexivity.
  - left. reflexivity.
Defined.

(** What a write of [process] is made of. *)
Lemma process_write (self : parameters) (ext : collaborators)
      (event_dict : dict) (index doc_type : string) (body : dict) :
  In (EsIndex index doc_type body) (fst (process self ext event_dict)) ->
  doc_type = elastic_doctype self /\ get_index self body (today ext) = Ok index.
Proof.
  intros Hin.
  destruct (flatten ext (flatten_fields self) event_dict) as [flat | e] eqn:Hflat.
  - rewrite (process_after_flatten _ _ _ _ Hflat) in Hin. cbv zeta in Hin.
    destruct (get_index self _ (today ext)) as [i | e] eqn:Hidx; [|destruct Hin].
    destruct (es_index ext i (elastic_doctype self) _); simpl in Hin.
    + destruct Hin as [H | [H | []]]; [|discriminate].
      injection H as <- <- <-. now split.
    + destruct Hin as [H | []]. injection H as <- <- <-. now split.
  - rewrite (process_before_flatten _ _ _ _ Hflat) in Hin. destruct Hin.
Qed.

(** X11: every write of [process] carries the configured document type,
    and goes to the index that [get_index] gives for the document written
    and the day of the clock; without rotation that is the configured
    index. *)
Theorem process_destination (self : parameters) (ext : collaborators)
        (event_dict : dict) (index doc_type : string) (body : dict) :
  In (EsIndex index doc_type body) (fst (process self ext event_dict)) ->
  doc_type = elastic_doctype self
  /\ get_index self body (today ext) = Ok index
  /\ (rotate_index self = false -> index = elastic_index self).
Proof.
  intros Hin. destruct (process_write _ _ _ _ _ _ Hin) as [Hd Hi].
  split; [exact Hd|]. split; [exact Hi|].
  intros Hrot. unfold get_index in Hi. rewrite Hrot in Hi. now injection Hi.
Qed.

Lemma process_destination_witness :
  "events" = elastic_doctype default_parameters
  /\ get_index default_parameters [("feed_name", VStr "x")] (today quiet_collaborators)
     = Ok "intelmq"
  /\ (rotate_index default_parameters = false -> "intelmq" = elastic_index default_parameters).
Proof.
  apply (process_destination default_parameters quiet_collaborators
           [("feed.name", VStr "x")] "intelmq" "events" [("feed_name", VStr "x")]).
  left. reflexivity.
Defined.

(** ** The start of the bot *)

Lemma split_char_step (c a : ascii) (s : string) :
  split_from (PyStr.chr c) 0 (String a s)
  = if Ascii.eqb c a then EmptyString :: split_from (PyStr.chr c) 0 s
    else match split_from (PyStr.chr c) 0 s with
         | piece :: pieces => String a piece :: pieces
         | [] => [String a EmptyString]
         end.
Proof.
  unfold PyStr.chr. cbn [split_from PyStr.startswith String.length Nat.sub].
  now rewrite andb_true_r.
Qed.

Lemma split_char_not_nil (c : ascii) (s : string) :
  split_from (PyStr.chr c) 0 s <> [].
Proof.
  destruct s as [|a s]; [discriminate|].
  rewrite split_char_step. destruct (Ascii.eqb c a); [discriminate|].
  destruct (split_from (PyStr.chr c) 0 s); discriminate.
Qed.

Lemma str_join_cons (sep : string) (a : ascii) (piece : string) (pieces : list string) :
  str_join sep (String a piece :: pieces) = String a (str_join sep (piece :: pieces)).
Proof. destruct pieces; reflexivity. Qed.

Lemma join_split_char (c : ascii) (s : string) :
  str_join (PyStr.chr c) (split_from (PyStr.chr c) 0 s) = s.
Proof.
  induction s as [|a s IH]; [reflexivity|].
  rewrite split_char_step. destruct (Ascii.eqb c a) eqn:E.
  - apply Ascii.eqb_eq in E. subst a.
    pose proof (split_char_not_nil c s) as Hne.
    destruct (split_from (PyStr.chr c) 0 s) as [|piece pieces] eqn:Es; [contradiction|].
    change (str_join (PyStr.chr c) (EmptyString :: piece :: pieces))
      with (String c (str_join (PyStr.chr c) (piece :: pieces))).
    now rewrite IH.
  - pose proof (split_char_not_nil c s) as Hne.
    destruct (split_from (PyStr.chr c) 0 s) as [|piece pieces] eqn:Es; [contradiction|].
    rewrite str_join_cons, IH. reflexivity.
Qed.

Lemma split_char_pieces (c : ascii) (s : string) :
  Forall (fun piece => PyStr.contains c piece = false) (split_from (PyStr.chr c) 0 s).
Proof.
  induction s as [|a s IH]; [repeat constructor|].
  rewrite split_char_step. destruct (Ascii.eqb c a) eqn:E.
  - constructor; [reflexivity | exact IH].
  - destruct (split_from (PyStr.chr c) 0 s) as [|piece pieces].
    + repeat constructor. simpl. now rewrite E.
    + inversion IH as [|? ? Hp Hps]; subst. constructor; [|exact Hps].
      simpl. now rewrite E, Hp.
Qed.

Lemma flatten_fields_of_total (setting : flatten_setting) :
  exists fields, flatten_fields_of setting = Ok fields.
Proof. destruct setting; simpl; eauto. Qed.

(** What [init] is when the client library is there. *)
Lemma init_with_module (cfg : settings) (es : cluster) (fields : list string) :
  module_present es = true ->
  flatten_fields_of (getattr (set_flatten_fields cfg) (FieldsList ["extra"])) = Ok fields ->
  let index := getattr (set_elastic_index cfg) "intelmq" in
  let self := Parameters index (getattr (set_rotate_index cfg) false)
                         (getattr (set_elastic_doctype cfg) "events")
                         (getattr (set_replacement_char cfg) "_") fields in
  let connect := Connect (getattr (set_elastic_host cfg) "127.0.0.1")
                         (getattr (set_elastic_port cfg) "9200")
                         (http_auth_of (set_http_username cfg) (set_http_password cfg)) in
  init cfg es
  = if getattr (set_rotate_index cfg) false then
      ([connect; ExistsTemplate index],
       match exists_template es index with
       | Raise e => Raise e
       | Ok true => Ok self
       | Ok false => Raise (OtherError "RuntimeError")
       end)
    else
      match indices_exists es index with
      | Raise e => ([connect; IndicesExists index], Raise e)
      | Ok true => ([connect; IndicesExists index], Ok self)
      | Ok false =>
          ([connect; IndicesExists index; IndicesCreate index],
           match indices_create es index with Raise e => Raise e | Ok _ => Ok self end)
      end.
Proof.
  intros Hm Hf. unfold init. rewrite Hm, Hf. cbn [negb].
  destruct (getattr (set_rotate_index cfg) false).
  - destruct (exists_template es _) as [[|]|]; reflexivity.
  - destruct (indices_exists es _) as [[|]|]; try reflexivity.
    destruct (indices_create es _); reflexivity.
Qed.

Lemma init_without_module (cfg : settings) (es : cluster) :
  module_present es = false -> init cfg es = ([], Raise ValueError).
Proof. intros Hm. unfold init. now rewrite Hm. Qed.

(** X12: with rotation, [init] builds the client, asks for the template of
    the name of the index and does nothing else: it neither looks for an
    index nor creates one.  It ends well exactly when the template is there,
    and with a [RuntimeError] when it is not. *)
Theorem init_rotation (cfg : settings) (es : cluster) :
  module_present es = true ->
  set_rotate_index cfg = Some true ->
  let index := getattr (set_elastic_index cfg) "intelmq" in
  fst (init cfg es)
  = [Connect (getattr (set_elastic_host cfg) "127.0.0.1")
             (getattr (set_elastic_port cfg) "9200")
             (http_auth_of (set_http_username cfg) (set_http_password cfg));
     ExistsTemplate index]
  /\ ((exists self, snd (init cfg es) = Ok self) <-> exists_template es index = Ok true)
  /\ (exists_template es index = Ok false ->
      snd (init cfg es) = Raise (OtherError "RuntimeError")).
Proof.
  intros Hm Hrot index.
  destruct (flatten_fields_of_total
              (getattr (set_flatten_fields cfg) (FieldsList ["extra"]))) as [fields Hf].
  rewrite (init_with_module cfg es fields Hm Hf). cbv zeta.
  rewrite Hrot. cbn [getattr fst snd]. fold index.
  split; [reflexivity|]. split.
  - destruct (exists_template es index) as [[|]|e]; split;
      try reflexivity; try (intros [self H]; discriminate); try discriminate.
    intros _. eauto.
  - intros ->. reflexivity.
Qed.

Lemma init_rotation_witness :
  fst (init (Settings None None (Some "feeds") (Some true) None None None None None)
            empty_cluster)
  = [Connect "127.0.0.1" "9200" None; ExistsTemplate "feeds"]
  /\ snd (init (Settings None None (Some "feeds") (Some true) None None None None None)
               empty_cluster)
     = Raise (OtherError "RuntimeError").
Proof.
  destruct (init_rotation
              (Settings None None (Some "feeds") (Some true) None None None None None)
              empty_cluster eq_refl eq_refl) as (Heff & _ & Hno).
  split; [exact Heff | apply Hno; reflexivity].
Defined.

(** X13: without rotation, [init] builds the client, looks for the index
    and creates it exactly when the answer is that it is not there; it never
    asks for a template.  It ends well when the index is there or could be
    created. *)
Theorem init_no_rotation (cfg : settings) (es : cluster) :
  module_present es = true ->
  getattr (set_rotate_index cfg) false = false ->
  let index := getattr (set_elastic_index cfg) "intelmq" in
  fst (init cfg es)
  = (Connect (getattr (set_elastic_host cfg) "127.0.0.1")
             (getattr (set_elastic_port cfg) "9200")
             (http_auth_of (set_http_username cfg) (set_http_password cfg))
     :: IndicesExists index
     :: match indices_exists es index with
        | Ok false => [IndicesCreate index]
        | _ => []
        end)%list
  /\ ((exists self, snd (init cfg es) = Ok self)
      <-> indices_exists es index = Ok true
          \/ (indices_exists es index = Ok false /\ indices_create es index = Ok tt)).
Proof.
  intros Hm Hrot index.
  destruct (flatten_fields_of_total
              (getattr (set_flatten_fields cfg) (FieldsList ["extra"]))) as [fields Hf].
  rewrite (init_with_module cfg es fields Hm Hf). cbv zeta.
  rewrite Hrot. fold index.
  destruct (indices_exists es index) as [[|]|e]; cbn [fst snd].
  - split; [reflexivity|]. split; [now left | eauto].
  - split; [reflexivity|].
    destruct (indices_create es index) as [[]|e]; split.
    + intros _. right. now split.
    + eauto.
    + intros [self H]. discriminate.
    + intros [H | [_ H]]; discriminate.
  - split; [reflexivity|]. split.
    + intros [self H]. discriminate.
    + intros [H | [H _]]; discriminate.
Qed.

Lemma init_no_rotation_witness :
  fst (init no_settings empty_cluster)
  = [Connect "127.0.0.1" "9200" None; IndicesExists "intelmq"; IndicesCreate "intelmq"]
  /\ exists self, snd (init no_settings empty_cluster) = Ok self.
Proof.
  destruct (init_no_rotation no_settings empty_cluster eq_refl eq_refl) as [Heff Hok].
  split; [exact Heff|]. apply Hok. right. split; reflexivity.
Defined.

(** X14: the credentials go to the client exactly when a user name and a
    password are both set and neither is empty; one without the other is
    dropped without an error. *)
Theorem init_credentials (cfg : settings) (es : cluster) :
  module_present es = true ->
  exists host port auth rest,
    fst (init cfg es) = Connect host port auth :: rest
    /\ (forall u p,
          auth = Some (u, p)
          <-> set_http_username cfg = Some u /\ set_http_password cfg = Some p
              /\ u <> EmptyString /\ p <> EmptyString).
Proof.
  intros Hm.
  destruct (flatten_fields_of_total
              (getattr (set_flatten_fields cfg) (FieldsList ["extra"]))) as [fields Hf].
  rewrite (init_with_module cfg es fields Hm Hf). cbv zeta.
  exists (getattr (set_elastic_host cfg) "127.0.0.1"),
         (getattr (set_elastic_port cfg) "9200"),
         (http_auth_of (set_http_username cfg) (set_http_password cfg)).
  assert (forall u p,
             http_auth_of (set_http_username cfg) (set_http_password cfg) = Some (u, p)
             <-> set_http_username cfg = Some u /\ set_http_password cfg = Some p
                 /\ u <> EmptyString /\ p <> EmptyString) as Hauth.
  { intros u p. unfold http_auth_of.
    destruct (set_http_username cfg) as [[|a u0]|], (set_http_password cfg) as [[|b p0]|];
      split; try discriminate;
      try (intros (H1 & H2 & H3 & H4); try discriminate;
           injection H1 as <-; injection H2 as <-; congruence).
    intros [= <- <-]. repeat split; discriminate. }
  destruct (getattr (set_rotate_index cfg) false).
  - eexists. split; [reflexivity | exact Hauth].
  - destruct (indices_exists es _) as [[|]|e]; eexists; (split; [reflexivity | exact Hauth]).
Qed.

Lemma init_credentials_witness :
  exists host port auth rest,
    fst (init (Settings None None None None (Some "user") None None None None)
              ready_cluster)
    = Connect host port auth :: rest
    /\ (forall u p,
          auth = Some (u, p)
          <-> Some "user" = Some u /\ @None string = Some p
              /\ u <> EmptyString /\ p <> EmptyString).
Proof.
  apply (init_credentials
           (Settings None None None None (Some "user") None None None None)
           ready_cluster).
  reflexivity.
Defined.

(** What [init] returns when it ends well. *)
Lemma init_started (cfg : settings) (es : cluster) (self : parameters) :
  snd (init cfg es) = Ok self ->
  module_present es = true
  /\ flatten_fields_of (getattr (set_flatten_fields cfg) (FieldsList ["extra"]))
     = Ok (flatten_fields self)
  /\ elastic_index self = getattr (set_elastic_index cfg) "intelmq"
  /\ rotate_index self = getattr (set_rotate_index cfg) false
  /\ elastic_doctype self = getattr (set_elastic_doctype cfg) "events"
  /\ replacement_char self = getattr (set_replacement_char cfg) "_".
Proof.
  intros H.
  destruct (module_present es) eqn:Hm;
    [|rewrite (init_without_module cfg es Hm) in H; discriminate].
  destruct (flatten_fields_of_total
              (getattr (set_flatten_fields cfg) (FieldsList ["extra"]))) as [fields Hf].
  rewrite (init_with_module cfg es fields Hm Hf) in H. cbv zeta in H.
  rewrite Hf.
  destruct (getattr (set_rotate_index cfg) false) eqn:Hrot.
  - cbn [snd] in H. destruct (exists_template es _) as [[|]|e]; try discriminate.
    injection H as <-. now repeat split.
  - destruct (indices_exists es _) as [[|]|e]; cbn [snd] in H; try discriminate.
    + injection H as <-. now repeat split.
    + destruct (indices_create es _); try discriminate.
      injection H as <-. now repeat split.
Qed.

(** X15: a [flatten_fields] given as a text is cut at its commas: the
    names of the bot, joined by commas, give the text back, no name holds a
    comma, and there is at least one name (the empty text gives one empty
    name); nothing is trimmed.  A [flatten_fields] given as a list is taken
    as it is. *)
Theorem init_flatten_fields (cfg : settings) (es : cluster) (self : parameters) :
  snd (init cfg es) = Ok self ->
  (forall text, set_flatten_fields cfg = Some (FieldsText text) ->
     str_join "," (flatten_fields self) = text
     /\ Forall (fun name => PyStr.contains "," name = false) (flatten_fields self)
     /\ flatten_fields self <> [])
  /\ (forall names, set_flatten_fields cfg = Some (FieldsList names) ->
        flatten_fields self = names)
  /\ (set_flatten_fields cfg = None -> flatten_fields self = ["extra"]).
Proof.
  intros H. apply init_started in H as (_ & Hf & _).
  split; [|split].
  - intros text Ht. rewrite Ht in Hf. simpl in Hf. injection Hf as Hf. rewrite <- Hf.
    split; [apply (join_split_char ",") |].
    split; [apply (split_char_pieces ",") | apply (split_char_not_nil ",")].
  - intros names Hn. rewrite Hn in Hf. simpl in Hf. now injection Hf.
  - intros Hn. rewrite Hn in Hf. simpl in Hf. now injection Hf.
Qed.

Lemma init_flatten_fields_witness :
  str_join "," ["extra"; " raw"; ""] = "extra, raw,"
  /\ Forall (fun name => PyStr.contains "," name = false) ["extra"; " raw"; ""]
  /\ ["extra"; " raw"; ""] <> [].
Proof.
  apply (proj1 (init_flatten_fields
                  (Settings None None None None None None None None
                            (Some (FieldsText "extra, raw,")))
                  ready_cluster
                  (Parameters "intelmq" false "events" "_" ["extra"; " raw"; ""])
                  eq_refl)
               "extra, raw," eq_refl).
Defined.

(** X16: when [init] ends well, the client library is there, the settings
    of the bot are those given, the defaults for the others, and the cluster
    answered, with rotation, that the template of the index is there, and
    without, that the index is there, or that it is not and then the call
    that creates it returned without an exception (it is made with
    [ignore=400], so it also returns when the cluster refuses with that
    status). *)
Theorem init_postcondition (cfg : settings) (es : cluster) (self : parameters) :
  snd (init cfg es) = Ok self ->
  module_present es = true
  /\ elastic_index self = getattr (set_elastic_index cfg) "intelmq"
  /\ rotate_index self = getattr (set_rotate_index cfg) false
  /\ elastic_doctype self = getattr (set_elastic_doctype cfg) "events"
  /\ replacement_char self = getattr (set_replacement_char cfg) "_"
  /\ (if rotate_index self
      then exists_template es (elastic_index self) = Ok true
      else indices_exists es (elastic_index self) = Ok true
           \/ (indices_exists es (elastic_index self) = Ok false
               /\ indices_create es (elastic_index self) = Ok tt)).
Proof.
  intros H. pose proof (init_started cfg es self H) as (Hm & Hf & Hi & Hr & Hd & Hc).
  repeat (split; [assumption|]).
  rewrite (init_with_module cfg es (flatten_fields self) Hm Hf) in H. cbv zeta in H.
  rewrite Hr, Hi.
  destruct (getattr (set_rotate_index cfg) false).
  - cbn [snd] in H. destruct (exists_template es _) as [[|]|e]; try discriminate.
    reflexivity.
  - destruct (indices_exists es _) as [[|]|e]; cbn [snd] in H; try discriminate.
    + now left.
    + destruct (indices_create es _) as [[]|e]; try discriminate. right. now split.
Qed.

Lemma init_postcondition_witness :
  module_present ready_cluster = true
  /\ elastic_index default_parameters = getattr (set_elastic_index no_settings) "intelmq"
  /\ rotate_index default_parameters = getattr (set_rotate_index no_settings) false
  /\ elastic_doctype default_parameters = getattr (set_elastic_doctype no_settings) "events"
  /\ replacement_char default_parameters = getattr (set_replacement_char no_settings) "_"
  /\ (if rotate_index default_parameters
      then exists_template ready_cluster (elastic_index default_parameters) = Ok true
      else indices_exists ready_cluster (elastic_index default_parameters) = Ok true
           \/ (indices_exists ready_cluster (elastic_index default_parameters) = Ok false
               /\ indices_create ready_cluster (elastic_index default_parameters) = Ok tt)).
Proof.
  apply (init_postcondition no_settings ready_cluster default_parameters). reflexivity.
Defined.

(** X17: the bot writes where [init] looked: without rotation every write
    of [process] goes to the index that [init] looked for, and with rotation
    to an index named by the name whose template [init] asked for, a dash and
    a suffix. *)
Theorem process_writes_where_init_looked
        (cfg : settings) (es : cluster) (self : parameters)
        (ext : collaborators) (event_dict : dict)
        (index doc_type : string) (body : dict) :
  snd (init cfg es) = Ok self ->
  In (EsIndex index doc_type body) (fst (process self ext event_dict)) ->
  if rotate_index self
  then In (ExistsTemplate (elastic_index self)) (fst (init cfg es))
       /\ exists suffix, index = elastic_index self ++ "-" ++ suffix
  else In (IndicesExists index) (fst (init cfg es)).
Proof.
  intros Hinit Hwrite.
  pose proof (init_started cfg es self Hinit) as (Hm & Hf & Hi & Hr & _).
  apply process_write in Hwrite as [_ Hidx].
  unfold get_index in Hidx.
  rewrite (init_with_module cfg es (flatten_fields self) Hm Hf). cbv zeta.
  rewrite <- Hr, <- Hi.
  destruct (rotate_index self).
  - split; [right; now left|].
    rewrite event_date_of_two in Hidx. cbn [bind] in Hidx.
    injection Hidx as <-. eexists. reflexivity.
  - injection Hidx as <-.
    destruct (indices_exists es (elastic_index self)) as [[|]|e]; right; now left.
Qed.

Lemma process_writes_where_init_looked_witness :
  In (IndicesExists "intelmq") (fst (init no_settings ready_cluster)).
Proof.
  apply (process_writes_where_init_looked no_settings ready_cluster default_parameters
           quiet_collaborators [("feed.name", VStr "x")]
           "intelmq" "events" [("feed_name", VStr "x")]).
  - reflexivity.
  - left. reflexivity.
Defined.

(** ** A field named twice *)

Lemma flatten_field_again (ext : collaborators) (event_dict result : dict)
      (field : string) :
  flatten_field ext event_dict field = Ok result ->
  flatten_field ext result field = Ok result.
Proof.
  unfold flatten_field.
  destruct (dict_get field event_dict) as [val|] eqn:Hget.
  - destruct (try_loads ext val) as [decoded | e] eqn:Hval; simpl; [|discriminate].
    destruct decoded;
      try (intros [= <-]; rewrite Hget, Hval; reflexivity).
    intros [= <-]. now rewrite dict_get_pop, String.eqb_refl.
  - intros [= <-]. now rewrite Hget.
Qed.

(** X18: a field named twice in a row in the flatten list is flattened
    once: the second turn finds the field gone, or finds again a value that
    is no mapping, and changes nothing. *)
Theorem flatten_field_twice (ext : collaborators) (field : string)
        (done rest : list string) (event_dict : dict) :
  flatten ext (done ++ field :: field :: rest)%list event_dict
  = flatten ext (done ++ field :: rest)%list event_dict.
Proof.
  rewrite !flatten_app.
  destruct (flatten ext done event_dict) as [working | e]; [|reflexivity].
  cbn [bind flatten].
  destruct (flatten_field ext working field) as [result | e] eqn:E; [|reflexivity].
  cbn [bind]. now rewrite (flatten_field_again _ _ _ _ E).
Qed.
